(** * EZNotes front-end (src/App.tsx): recording session, file intake,
    submission and download naming

    A shallow embedding of the [App] component: its React state, its refs
    and the browser objects it drives (media streams, media recorders,
    timers, animation frames, audio contexts), with every event handler
    written as a function over that world.  The component modelled is the
    one with pause, resume, cancel and level metering.  Strings are byte
    strings, ids of browser objects are positive numbers (browser handles
    are never zero, so [if (ref.current)] is a test for presence). *)

From Stdlib Require Import String Ascii List ZArith Lia Bool DecimalString
  DecimalNat.
From stdpp Require Import base gmap strings list.

Local Open Scope string_scope.

#[local] Set Warnings "-register-all,-abstract-large-number,-clear-no-such-hyp".

(** ** String primitives of the JavaScript runtime *)

Module Js.

(** [s.startsWith(p)] *)
Fixpoint startsWith (s p : string) : bool :=
  match p, s with
  | EmptyString, _ => true
  | String _ _, EmptyString => false
  | String c p', String d s' => Ascii.eqb c d && startsWith s' p'
  end.

(** [s.endsWith(p)]: some tail of [s] is [p]. *)
Fixpoint endsWith (s p : string) : bool :=
  String.eqb s p ||
  match s with
  | EmptyString => false
  | String _ s' => endsWith s' p
  end.

(** [s.includes(p)]: [p] starts at some position of [s]. *)
Fixpoint includes (s p : string) : bool :=
  startsWith s p ||
  match s with
  | EmptyString => false
  | String _ s' => includes s' p
  end.

(** [s.split(sep)[0]] for a one-character separator: the text before
    its first occurrence (the whole string when it does not occur). *)
Fixpoint split_head (sep : ascii) (s : string) : string :=
  match s with
  | EmptyString => EmptyString
  | String c s' =>
      if Ascii.eqb c sep then EmptyString else String c (split_head sep s')
  end.

(** [s.replace(/c/g, d)] for single characters. *)
Fixpoint replace_all (c d : ascii) (s : string) : string :=
  match s with
  | EmptyString => EmptyString
  | String x s' =>
      String (if Ascii.eqb x c then d else x) (replace_all c d s')
  end.

(** The character class [[^/.]] of the extension pattern. *)
Definition ext_char (c : ascii) : bool :=
  negb (Ascii.eqb c "/") && negb (Ascii.eqb c ".").

(** Every character of [s] satisfies [P]. *)
Fixpoint every (P : ascii -> bool) (s : string) : bool :=
  match s with
  | EmptyString => true
  | String c s' => P c && every P s'
  end.

(** Does the whole of [s] match [[^/.]+] ? *)
Definition ext_tail (s : string) : bool :=
  negb (String.eqb s "") && every ext_char s.

(** [s.replace(/\.[^/.]+$/, "")]: the pattern is anchored at the end of
    the input, so the leftmost match, if any, runs to the end and the
    result is what precedes it. *)
Fixpoint strip_extension (s : string) : string :=
  match s with
  | EmptyString => EmptyString
  | String c s' =>
      if Ascii.eqb c "." && ext_tail s' then EmptyString
      else String c (strip_extension s')
  end.

(** A decimal digit character; arguments are always below ten. *)
Definition digit (n : nat) : ascii :=
  match n with
  | 0 => "0" | 1 => "1" | 2 => "2" | 3 => "3" | 4 => "4"
  | 5 => "5" | 6 => "6" | 7 => "7" | 8 => "8" | _ => "9"
  end%char.

(** [n] written with exactly [k] decimal digits (zero padded), as the
    date formats of ECMAScript prescribe. *)
Fixpoint fixed (k n : nat) : string :=
  match k with
  | 0 => EmptyString
  | S k' => fixed k' (n / 10) +:+ String (digit (n mod 10)) EmptyString
  end.

(** [String(n)] for a non-negative integer. *)
Definition of_nat (n : nat) : string :=
  NilZero.string_of_uint (Nat.to_uint n).

Definition is_digit (c : ascii) : bool :=
  (48 <=? nat_of_ascii c)%nat && (nat_of_ascii c <=? 57)%nat.

End Js.

(** ** Values handled by the component *)

(** A [Date], by the fields the two formatters read: [toISOString] prints
    the UTC fields, [toTimeString] the local wall-clock time followed by
    the zone designation. *)
Record Date := {
  utcFullYear : nat;
  utcMonth : nat;          (* 1 .. 12, as printed *)
  utcDate : nat;
  utcHours : nat;
  utcMinutes : nat;
  utcSeconds : nat;
  utcMilliseconds : nat;
  localHours : nat;
  localMinutes : nat;
  localSeconds : nat;
  zoneText : string        (* e.g. GMT+0200 (Central European Summer Time) *)
}.

(** [d.toISOString()]: [YYYY-MM-DDTHH:mm:ss.sssZ]; years above 9999 use
    the expanded form with a sign and six digits. *)
Definition toISOString (d : Date) : string :=
  (if (utcFullYear d <=? 9999)%nat then Js.fixed 4 (utcFullYear d)
   else "+" +:+ Js.fixed 6 (utcFullYear d))
  +:+ "-" +:+ Js.fixed 2 (utcMonth d) +:+ "-" +:+ Js.fixed 2 (utcDate d)
  +:+ "T" +:+ Js.fixed 2 (utcHours d) +:+ ":" +:+ Js.fixed 2 (utcMinutes d)
  +:+ ":" +:+ Js.fixed 2 (utcSeconds d) +:+ "."
  +:+ Js.fixed 3 (utcMilliseconds d) +:+ "Z".

(** [d.toTimeString()]: [HH:MM:SS] then a space and the zone. *)
Definition toTimeString (d : Date) : string :=
  Js.fixed 2 (localHours d) +:+ ":" +:+ Js.fixed 2 (localMinutes d)
  +:+ ":" +:+ Js.fixed 2 (localSeconds d) +:+ " " +:+ zoneText d.

(** A chunk of recorded data, a [Blob] assembled from chunks, a [File]. *)
Definition Chunk := list Byte.byte.

Record Blob := { blob_parts : list Chunk; blob_type : string }.

Record File := {
  file_name : string;
  file_type : string;
  file_parts : list Chunk
}.

(** JavaScript values: what [response.json()] can resolve to, and
    [undefined], which reading a missing property yields. Numbers are kept
    as integers: the component only tests values for truthiness and stores
    them. *)
Inductive JsValue :=
| JUndefined
| JNull
| JBool (b : bool)
| JNum (n : Z)
| JStr (s : string)
| JArr (items : list JsValue)
| JObj (fields : list (string * JsValue)).

(** [interface OutputData]; at run time the two fields hold whatever the
    response carried. *)
Record OutputData := { soapNote : JsValue; patientSummary : JsValue }.

Record OutputSelection := { sel_soapNote : bool; sel_patientSummary : bool }.

Inductive RecorderState := inactive | recording | paused.

(** A [MediaRecorder] together with what its two callbacks close over:
    the stream and the [chunks] array. *)
Record MediaRecorder := {
  mr_stream : positive;
  mr_state : RecorderState;
  mr_chunks : list Chunk
}.

(** Callbacks handed to [setTimeout]; both use a delay of 100 ms. *)
Inductive TimeoutCallback := CbStartRecording | CbResetCancelling.

(** ** The world: React state, refs, browser *)

Record UiState := {
  file : option File;
  isUploading : bool;
  output : option OutputData;
  error : option string;
  outputSelection : OutputSelection;
  isRecording : bool;
  isPaused : bool;
  recordedBlob : option Blob;
  recordingTime : nat;
  isPlaying : bool;
  showRecorder : bool;
  audioLevel : nat         (* the normalised level, in thousandths *)
}.

Record Refs := {
  isCancellingRef : bool;
  mediaRecorderRef : option positive;
  streamRef : option positive;
  intervalRef : option positive;
  audioContextRef : option positive;
  analyserRef : option positive;
  animationRef : option positive;
  audioSrc : option Blob;  (* [audioRef.current.src]: an object URL of a blob, or empty *)
  audioPlaying : bool;
  fileInputValue : string
}.

Record Browser := {
  next_id : positive;
  streams : gmap positive nat;       (* stream -> release calls on its tracks *)
  recorders : gmap positive MediaRecorder;
  intervals : gset positive;         (* live [setInterval] timers *)
  frames : gset positive;            (* pending [requestAnimationFrame] callbacks *)
  contexts : gset positive;          (* open [AudioContext]s *)
  tasks : list positive;             (* recorders with a queued stop event *)
  timeouts : list TimeoutCallback;   (* pending [setTimeout] callbacks, oldest first *)
  pendingGetUserMedia : nat;         (* unsettled [getUserMedia] promises *)
  pendingFetches : list File         (* file captured by each request in flight *)
}.

Record World := { ui : UiState; refs : Refs; env : Browser }.

(** Field updates. Each [with_f] replaces one field of the world and
    keeps every other one. *)

Section UiStateUpdates.
Variable w : World.
Definition with_file (v : option File) : World :=
  let ui_ := {|
    file := v; isUploading := isUploading (ui w); output := output (ui w);
    error := error (ui w); outputSelection := outputSelection (ui w);
    isRecording := isRecording (ui w); isPaused := isPaused (ui w);
    recordedBlob := recordedBlob (ui w);
    recordingTime := recordingTime (ui w); isPlaying := isPlaying (ui w);
    showRecorder := showRecorder (ui w); audioLevel := audioLevel (ui w) |} in
  {| ui := ui_; refs := refs w; env := env w |}.
Definition with_isUploading (v : bool) : World :=
  let ui_ := {|
    file := file (ui w); isUploading := v; output := output (ui w);
    error := error (ui w); outputSelection := outputSelection (ui w);
    isRecording := isRecording (ui w); isPaused := isPaused (ui w);
    recordedBlob := recordedBlob (ui w);
    recordingTime := recordingTime (ui w); isPlaying := isPlaying (ui w);
    showRecorder := showRecorder (ui w); audioLevel := audioLevel (ui w) |} in
  {| ui := ui_; refs := refs w; env := env w |}.
Definition with_output (v : option OutputData) : World :=
  let ui_ := {|
    file := file (ui w); isUploading := isUploading (ui w); output := v;
    error := error (ui w); outputSelection := outputSelection (ui w);
    isRecording := isRecording (ui w); isPaused := isPaused (ui w);
    recordedBlob := recordedBlob (ui w);
    recordingTime := recordingTime (ui w); isPlaying := isPlaying (ui w);
    showRecorder := showRecorder (ui w); audioLevel := audioLevel (ui w) |} in
  {| ui := ui_; refs := refs w; env := env w |}.
Definition with_error (v : option string) : World :=
  let ui_ := {|
    file := file (ui w); isUploading := isUploading (ui w);
    output := output (ui w); error := v;
    outputSelection := outputSelection (ui w);
    isRecording := isRecording (ui w); isPaused := isPaused (ui w);
    recordedBlob := recordedBlob (ui w);
    recordingTime := recordingTime (ui w); isPlaying := isPlaying (ui w);
    showRecorder := showRecorder (ui w); audioLevel := audioLevel (ui w) |} in
  {| ui := ui_; refs := refs w; env := env w |}.
Definition with_outputSelection (v : OutputSelection) : World :=
  let ui_ := {|
    file := file (ui w); isUploading := isUploading (ui w);
    output := output (ui w); error := error (ui w); outputSelection := v;
    isRecording := isRecording (ui w); isPaused := isPaused (ui w);
    recordedBlob := recordedBlob (ui w);
    recordingTime := recordingTime (ui w); isPlaying := isPlaying (ui w);
    showRecorder := showRecorder (ui w); audioLevel := audioLevel (ui w) |} in
  {| ui := ui_; refs := refs w; env := env w |}.
Definition with_isRecording (v : bool) : World :=
  let ui_ := {|
    file := file (ui w); isUploading := isUploading (ui w);
    output := output (ui w); error := error (ui w);
    outputSelection := outputSelection (ui w); isRecording := v;
    isPaused := isPaused (ui w); recordedBlob := recordedBlob (ui w);
    recordingTime := recordingTime (ui w); isPlaying := isPlaying (ui w);
    showRecorder := showRecorder (ui w); audioLevel := audioLevel (ui w) |} in
  {| ui := ui_; refs := refs w; env := env w |}.
Definition with_isPaused (v : bool) : World :=
  let ui_ := {|
    file := file (ui w); isUploading := isUploading (ui w);
    output := output (ui w); error := error (ui w);
    outputSelection := outputSelection (ui w);
    isRecording := isRecording (ui w); isPaused := v;
    recordedBlob := recordedBlob (ui w);
    recordingTime := recordingTime (ui w); isPlaying := isPlaying (ui w);
    showRecorder := showRecorder (ui w); audioLevel := audioLevel (ui w) |} in
  {| ui := ui_; refs := refs w; env := env w |}.
Definition with_recordedBlob (v : option Blob) : World :=
  let ui_ := {|
    file := file (ui w); isUploading := isUploading (ui w);
    output := output (ui w); error := error (ui w);
    outputSelection := outputSelection (ui w);
    isRecording := isRecording (ui w); isPaused := isPaused (ui w);
    recordedBlob := v; recordingTime := recordingTime (ui w);
    isPlaying := isPlaying (ui w); showRecorder := showRecorder (ui w);
    audioLevel := audioLevel (ui w) |} in
  {| ui := ui_; refs := refs w; env := env w |}.
Definition with_recordingTime (v : nat) : World :=
  let ui_ := {|
    file := file (ui w); isUploading := isUploading (ui w);
    output := output (ui w); error := error (ui w);
    outputSelection := outputSelection (ui w);
    isRecording := isRecording (ui w); isPaused := isPaused (ui w);
    recordedBlob := recordedBlob (ui w); recordingTime := v;
    isPlaying := isPlaying (ui w); showRecorder := showRecorder (ui w);
    audioLevel := audioLevel (ui w) |} in
  {| ui := ui_; refs := refs w; env := env w |}.
Definition with_isPlaying (v : bool) : World :=
  let ui_ := {|
    file := file (ui w); isUploading := isUploading (ui w);
    output := output (ui w); error := error (ui w);
    outputSelection := outputSelection (ui w);
    isRecording := isRecording (ui w); isPaused := isPaused (ui w);
    recordedBlob := recordedBlob (ui w);
    recordingTime := recordingTime (ui w); isPlaying := v;
    showRecorder := showRecorder (ui w); audioLevel := audioLevel (ui w) |} in
  {| ui := ui_; refs := refs w; env := env w |}.
Definition with_showRecorder (v : bool) : World :=
  let ui_ := {|
    file := file (ui w); isUploading := isUploading (ui w);
    output := output (ui w); error := error (ui w);
    outputSelection := outputSelection (ui w);
    isRecording := isRecording (ui w); isPaused := isPaused (ui w);
    recordedBlob := recordedBlob (ui w);
    recordingTime := recordingTime (ui w); isPlaying := isPlaying (ui w);
    showRecorder := v; audioLevel := audioLevel (ui w) |} in
  {| ui := ui_; refs := refs w; env := env w |}.
Definition with_audioLevel (v : nat) : World :=
  let ui_ := {|
    file := file (ui w); isUploading := isUploading (ui w);
    output := output (ui w); error := error (ui w);
    outputSelection := outputSelection (ui w);
    isRecording := isRecording (ui w); isPaused := isPaused (ui w);
    recordedBlob := recordedBlob (ui w);
    recordingTime := recordingTime (ui w); isPlaying := isPlaying (ui w);
    showRecorder := showRecorder (ui w); audioLevel := v |} in
  {| ui := ui_; refs := refs w; env := env w |}.
End UiStateUpdates.

Section RefsUpdates.
Variable w : World.
Definition with_isCancellingRef (v : bool) : World :=
  let refs_ := {|
    isCancellingRef := v; mediaRecorderRef := mediaRecorderRef (refs w);
    streamRef := streamRef (refs w); intervalRef := intervalRef (refs w);
    audioContextRef := audioContextRef (refs w);
    analyserRef := analyserRef (refs w);
    animationRef := animationRef (refs w); audioSrc := audioSrc (refs w);
    audioPlaying := audioPlaying (refs w);
    fileInputValue := fileInputValue (refs w) |} in
  {| ui := ui w; refs := refs_; env := env w |}.
Definition with_mediaRecorderRef (v : option positive) : World :=
  let refs_ := {|
    isCancellingRef := isCancellingRef (refs w); mediaRecorderRef := v;
    streamRef := streamRef (refs w); intervalRef := intervalRef (refs w);
    audioContextRef := audioContextRef (refs w);
    analyserRef := analyserRef (refs w);
    animationRef := animationRef (refs w); audioSrc := audioSrc (refs w);
    audioPlaying := audioPlaying (refs w);
    fileInputValue := fileInputValue (refs w) |} in
  {| ui := ui w; refs := refs_; env := env w |}.
Definition with_streamRef (v : option positive) : World :=
  let refs_ := {|
    isCancellingRef := isCancellingRef (refs w);
    mediaRecorderRef := mediaRecorderRef (refs w); streamRef := v;
    intervalRef := intervalRef (refs w);
    audioContextRef := audioContextRef (refs w);
    analyserRef := analyserRef (refs w);
    animationRef := animationRef (refs w); audioSrc := audioSrc (refs w);
    audioPlaying := audioPlaying (refs w);
    fileInputValue := fileInputValue (refs w) |} in
  {| ui := ui w; refs := refs_; env := env w |}.
Definition with_intervalRef (v : option positive) : World :=
  let refs_ := {|
    isCancellingRef := isCancellingRef (refs w);
    mediaRecorderRef := mediaRecorderRef (refs w);
    streamRef := streamRef (refs w); intervalRef := v;
    audioContextRef := audioContextRef (refs w);
    analyserRef := analyserRef (refs w);
    animationRef := animationRef (refs w); audioSrc := audioSrc (refs w);
    audioPlaying := audioPlaying (refs w);
    fileInputValue := fileInputValue (refs w) |} in
  {| ui := ui w; refs := refs_; env := env w |}.
Definition with_audioContextRef (v : option positive) : World :=
  let refs_ := {|
    isCancellingRef := isCancellingRef (refs w);
    mediaRecorderRef := mediaRecorderRef (refs w);
    streamRef := streamRef (refs w); intervalRef := intervalRef (refs w);
    audioContextRef := v; analyserRef := analyserRef (refs w);
    animationRef := animationRef (refs w); audioSrc := audioSrc (refs w);
    audioPlaying := audioPlaying (refs w);
    fileInputValue := fileInputValue (refs w) |} in
  {| ui := ui w; refs := refs_; env := env w |}.
Definition with_analyserRef (v : option positive) : World :=
  let refs_ := {|
    isCancellingRef := isCancellingRef (refs w);
    mediaRecorderRef := mediaRecorderRef (refs w);
    streamRef := streamRef (refs w); intervalRef := intervalRef (refs w);
    audioContextRef := audioContextRef (refs w); analyserRef := v;
    animationRef := animationRef (refs w); audioSrc := audioSrc (refs w);
    audioPlaying := audioPlaying (refs w);
    fileInputValue := fileInputValue (refs w) |} in
  {| ui := ui w; refs := refs_; env := env w |}.
Definition with_animationRef (v : option positive) : World :=
  let refs_ := {|
    isCancellingRef := isCancellingRef (refs w);
    mediaRecorderRef := mediaRecorderRef (refs w);
    streamRef := streamRef (refs w); intervalRef := intervalRef (refs w);
    audioContextRef := audioContextRef (refs w);
    analyserRef := analyserRef (refs w); animationRef := v;
    audioSrc := audioSrc (refs w); audioPlaying := audioPlaying (refs w);
    fileInputValue := fileInputValue (refs w) |} in
  {| ui := ui w; refs := refs_; env := env w |}.
Definition with_audioSrc (v : option Blob) : World :=
  let refs_ := {|
    isCancellingRef := isCancellingRef (refs w);
    mediaRecorderRef := mediaRecorderRef (refs w);
    streamRef := streamRef (refs w); intervalRef := intervalRef (refs w);
    audioContextRef := audioContextRef (refs w);
    analyserRef := analyserRef (refs w);
    animationRef := animationRef (refs w); audioSrc := v;
    audioPlaying := audioPlaying (refs w);
    fileInputValue := fileInputValue (refs w) |} in
  {| ui := ui w; refs := refs_; env := env w |}.
Definition with_audioPlaying (v : bool) : World :=
  let refs_ := {|
    isCancellingRef := isCancellingRef (refs w);
    mediaRecorderRef := mediaRecorderRef (refs w);
    streamRef := streamRef (refs w); intervalRef := intervalRef (refs w);
    audioContextRef := audioContextRef (refs w);
    analyserRef := analyserRef (refs w);
    animationRef := animationRef (refs w); audioSrc := audioSrc (refs w);
    audioPlaying := v; fileInputValue := fileInputValue (refs w) |} in
  {| ui := ui w; refs := refs_; env := env w |}.
Definition with_fileInputValue (v : string) : World :=
  let refs_ := {|
    isCancellingRef := isCancellingRef (refs w);
    mediaRecorderRef := mediaRecorderRef (refs w);
    streamRef := streamRef (refs w); intervalRef := intervalRef (refs w);
    audioContextRef := audioContextRef (refs w);
    analyserRef := analyserRef (refs w);
    animationRef := animationRef (refs w); audioSrc := audioSrc (refs w);
    audioPlaying := audioPlaying (refs w); fileInputValue := v |} in
  {| ui := ui w; refs := refs_; env := env w |}.
End RefsUpdates.

Section BrowserUpdates.
Variable w : World.
Definition with_next_id (v : positive) : World :=
  let env_ := {|
    next_id := v; streams := streams (env w); recorders := recorders (env w);
    intervals := intervals (env w); frames := frames (env w);
    contexts := contexts (env w); tasks := tasks (env w);
    timeouts := timeouts (env w);
    pendingGetUserMedia := pendingGetUserMedia (env w);
    pendingFetches := pendingFetches (env w) |} in
  {| ui := ui w; refs := refs w; env := env_ |}.
Definition with_streams (v : gmap positive nat) : World :=
  let env_ := {|
    next_id := next_id (env w); streams := v; recorders := recorders (env w);
    intervals := intervals (env w); frames := frames (env w);
    contexts := contexts (env w); tasks := tasks (env w);
    timeouts := timeouts (env w);
    pendingGetUserMedia := pendingGetUserMedia (env w);
    pendingFetches := pendingFetches (env w) |} in
  {| ui := ui w; refs := refs w; env := env_ |}.
Definition with_recorders (v : gmap positive MediaRecorder) : World :=
  let env_ := {|
    next_id := next_id (env w); streams := streams (env w); recorders := v;
    intervals := intervals (env w); frames := frames (env w);
    contexts := contexts (env w); tasks := tasks (env w);
    timeouts := timeouts (env w);
    pendingGetUserMedia := pendingGetUserMedia (env w);
    pendingFetches := pendingFetches (env w) |} in
  {| ui := ui w; refs := refs w; env := env_ |}.
Definition with_intervals (v : gset positive) : World :=
  let env_ := {|
    next_id := next_id (env w); streams := streams (env w);
    recorders := recorders (env w); intervals := v; frames := frames (env w);
    contexts := contexts (env w); tasks := tasks (env w);
    timeouts := timeouts (env w);
    pendingGetUserMedia := pendingGetUserMedia (env w);
    pendingFetches := pendingFetches (env w) |} in
  {| ui := ui w; refs := refs w; env := env_ |}.
Definition with_frames (v : gset positive) : World :=
  let env_ := {|
    next_id := next_id (env w); streams := streams (env w);
    recorders := recorders (env w); intervals := intervals (env w);
    frames := v; contexts := contexts (env w); tasks := tasks (env w);
    timeouts := timeouts (env w);
    pendingGetUserMedia := pendingGetUserMedia (env w);
    pendingFetches := pendingFetches (env w) |} in
  {| ui := ui w; refs := refs w; env := env_ |}.
Definition with_contexts (v : gset positive) : World :=
  let env_ := {|
    next_id := next_id (env w); streams := streams (env w);
    recorders := recorders (env w); intervals := intervals (env w);
    frames := frames (env w); contexts := v; tasks := tasks (env w);
    timeouts := timeouts (env w);
    pendingGetUserMedia := pendingGetUserMedia (env w);
    pendingFetches := pendingFetches (env w) |} in
  {| ui := ui w; refs := refs w; env := env_ |}.
Definition with_tasks (v : list positive) : World :=
  let env_ := {|
    next_id := next_id (env w); streams := streams (env w);
    recorders := recorders (env w); intervals := intervals (env w);
    frames := frames (env w); contexts := contexts (env w); tasks := v;
    timeouts := timeouts (env w);
    pendingGetUserMedia := pendingGetUserMedia (env w);
    pendingFetches := pendingFetches (env w) |} in
  {| ui := ui w; refs := refs w; env := env_ |}.
Definition with_timeouts (v : list TimeoutCallback) : World :=
  let env_ := {|
    next_id := next_id (env w); streams := streams (env w);
    recorders := recorders (env w); intervals := intervals (env w);
    frames := frames (env w); contexts := contexts (env w);
    tasks := tasks (env w); timeouts := v;
    pendingGetUserMedia := pendingGetUserMedia (env w);
    pendingFetches := pendingFetches (env w) |} in
  {| ui := ui w; refs := refs w; env := env_ |}.
Definition with_pendingGetUserMedia (v : nat) : World :=
  let env_ := {|
    next_id := next_id (env w); streams := streams (env w);
    recorders := recorders (env w); intervals := intervals (env w);
    frames := frames (env w); contexts := contexts (env w);
    tasks := tasks (env w); timeouts := timeouts (env w);
    pendingGetUserMedia := v; pendingFetches := pendingFetches (env w) |} in
  {| ui := ui w; refs := refs w; env := env_ |}.
Definition with_pendingFetches (v : list File) : World :=
  let env_ := {|
    next_id := next_id (env w); streams := streams (env w);
    recorders := recorders (env w); intervals := intervals (env w);
    frames := frames (env w); contexts := contexts (env w);
    tasks := tasks (env w); timeouts := timeouts (env w);
    pendingGetUserMedia := pendingGetUserMedia (env w); pendingFetches := v |} in
  {| ui := ui w; refs := refs w; env := env_ |}.
End BrowserUpdates.

(** ** Handlers as computations over the world

    A handler either completes normally or abruptly (a thrown exception);
    the world it has reached so far is kept in both cases, as the
    assignments and state updates made before a throw are. *)

Inductive Completion (A : Type) :=
| Normal (a : A)
| Abrupt (e : string).

Arguments Normal {A} a.
Arguments Abrupt {A} e.

Definition Handler (A : Type) : Type := World -> Completion A * World.

Definition ret {A} (a : A) : Handler A := fun w => (Normal a, w).

Definition bind {A B} (m : Handler A) (k : A -> Handler B) : Handler B :=
  fun w =>
    match m w with
    | (Normal a, w') => k a w'
    | (Abrupt e, w') => (Abrupt e, w')
    end.

Definition throw {A} (e : string) : Handler A := fun w => (Abrupt e, w).

(** [try { body } catch (err) { handler }] *)
Definition try_catch {A} (body : Handler A) (handler : string -> Handler A)
  : Handler A :=
  fun w =>
    match body w with
    | (Normal a, w') => (Normal a, w')
    | (Abrupt e, w') => handler e w'
    end.

(** [... finally { fin }]: [fin] always runs; its own abrupt completion
    would replace the one of the body. *)
Definition finally {A} (body : Handler A) (fin : Handler unit) : Handler A :=
  fun w =>
    match body w with
    | (c, w') =>
        match fin w' with
        | (Normal _, w'') => (c, w'')
        | (Abrupt e, w'') => (Abrupt e, w'')
        end
    end.

Definition get {A} (f : World -> A) : Handler A := fun w => (Normal (f w), w).

Definition update (f : World -> World) : Handler unit :=
  fun w => (Normal tt, f w).

(** The world a handler leaves behind. *)
Definition run (m : Handler unit) (w : World) : World := snd (m w).

Declare Scope handler_scope.
Delimit Scope handler_scope with handler.
Bind Scope handler_scope with Handler.

Notation "'let*' x ':=' m 'in' k" := (bind m (fun x => k))
  (at level 10, x name, m at level 100, k at level 200) : handler_scope.
Notation "m '>>' k" := (bind m (fun _ => k))
  (at level 100, k at level 200, right associativity) : handler_scope.

Local Open Scope handler_scope.

(** [if (ref) { then }] for a handle held in a ref. *)
Definition when_some {A} (o : option A) (k : A -> Handler unit) : Handler unit :=
  match o with
  | Some a => k a
  | None => ret tt
  end.

(** *** React state setters *)

Definition setFile (v : option File) := update (fun w => with_file w v).
Definition setIsUploading (v : bool) := update (fun w => with_isUploading w v).
Definition setOutput (v : option OutputData) := update (fun w => with_output w v).
Definition setError (v : option string) := update (fun w => with_error w v).
Definition setOutputSelection (v : OutputSelection) :=
  update (fun w => with_outputSelection w v).
Definition setIsRecording (v : bool) := update (fun w => with_isRecording w v).
Definition setIsPaused (v : bool) := update (fun w => with_isPaused w v).
Definition setRecordedBlob (v : option Blob) :=
  update (fun w => with_recordedBlob w v).
Definition setRecordingTime (v : nat) := update (fun w => with_recordingTime w v).
Definition setIsPlaying (v : bool) := update (fun w => with_isPlaying w v).
Definition setShowRecorder (v : bool) := update (fun w => with_showRecorder w v).
Definition setAudioLevel (v : nat) := update (fun w => with_audioLevel w v).

(** *** Browser primitives *)

(** A fresh handle for a browser object. *)
Definition fresh : Handler positive :=
  fun w =>
    (Normal (next_id (env w)), with_next_id w (Pos.succ (next_id (env w)))).

(** [navigator.mediaDevices.getUserMedia({ audio: true })], once settled:
    a new live stream, or a rejection. *)
Definition getUserMedia (granted : bool) : Handler positive :=
  if granted then
    let* s := fresh in
    update (fun w => with_streams w (<[s := 0]> (streams (env w)))) >>
    ret s
  else throw "NotAllowedError".

(** [stream.getTracks().forEach((track) => track.stop())]: one release
    call on the stream's track set. *)
Definition stopTracks (s : positive) : Handler unit :=
  update (fun w => with_streams w (alter S s (streams (env w)))).

Definition set_state (st : RecorderState) (m : MediaRecorder) : MediaRecorder :=
  {| mr_stream := mr_stream m; mr_state := st; mr_chunks := mr_chunks m |}.

Definition push_chunk (c : Chunk) (m : MediaRecorder) : MediaRecorder :=
  {| mr_stream := mr_stream m; mr_state := mr_state m;
     mr_chunks := mr_chunks m ++ [c] |}.

Definition recorder_state (r : positive) (w : World) : RecorderState :=
  match recorders (env w) !! r with
  | Some m => mr_state m
  | None => inactive
  end.

Definition set_recorder_state (r : positive) (st : RecorderState) : Handler unit :=
  update (fun w => with_recorders w (alter (set_state st) r (recorders (env w)))).

(** [new MediaRecorder(stream)] with a fresh, empty [chunks] array. *)
Definition newMediaRecorder (s : positive) : Handler positive :=
  let* r := fresh in
  update (fun w =>
    with_recorders w
      (<[r := {| mr_stream := s; mr_state := inactive; mr_chunks := [] |}]>
         (recorders (env w)))) >>
  ret r.

(** [recorder.start()]: only from [inactive]. *)
Definition recorder_start (r : positive) : Handler unit :=
  let* st := get (recorder_state r) in
  match st with
  | inactive => set_recorder_state r recording
  | _ => throw "InvalidStateError"
  end.

(** [recorder.pause()]: throws when inactive, otherwise the recorder is
    paused. *)
Definition recorder_pause (r : positive) : Handler unit :=
  let* st := get (recorder_state r) in
  match st with
  | inactive => throw "InvalidStateError"
  | _ => set_recorder_state r paused
  end.

(** [recorder.resume()]: throws when inactive. *)
Definition recorder_resume (r : positive) : Handler unit :=
  let* st := get (recorder_state r) in
  match st with
  | inactive => throw "InvalidStateError"
  | _ => set_recorder_state r recording
  end.

(** [recorder.stop()]: nothing when already inactive; otherwise the
    recorder becomes inactive and a task is queued that will fire
    [dataavailable] and then [stop]. *)
Definition recorder_stop (r : positive) : Handler unit :=
  let* st := get (recorder_state r) in
  match st with
  | inactive => ret tt
  | _ =>
      set_recorder_state r inactive >>
      update (fun w => with_tasks w (tasks (env w) ++ [r]))
  end.

Definition setInterval : Handler positive :=
  let* i := fresh in
  update (fun w => with_intervals w ({[i]} ∪ intervals (env w))) >>
  ret i.

Definition clearInterval (i : positive) : Handler unit :=
  update (fun w => with_intervals w (intervals (env w) ∖ {[i]})).

Definition requestAnimationFrame : Handler positive :=
  let* a := fresh in
  update (fun w => with_frames w ({[a]} ∪ frames (env w))) >>
  ret a.

Definition cancelAnimationFrame (a : positive) : Handler unit :=
  update (fun w => with_frames w (frames (env w) ∖ {[a]})).

Definition newAudioContext : Handler positive :=
  let* c := fresh in
  update (fun w => with_contexts w ({[c]} ∪ contexts (env w))) >>
  ret c.

Definition closeAudioContext (c : positive) : Handler unit :=
  update (fun w => with_contexts w (contexts (env w) ∖ {[c]})).

Definition setTimeout (cb : TimeoutCallback) : Handler unit :=
  update (fun w => with_timeouts w (timeouts (env w) ++ [cb])).

(** ** The recording session *)

(** [updateAudioLevel]: one metering refresh. The level computed from the
    analyser's samples is an input; the refresh re-arms itself. *)
Definition updateAudioLevel (lvl : nat) : Handler unit :=
  setAudioLevel lvl >>
  let* a := requestAnimationFrame in
  update (fun w => with_animationRef w (Some a)).

(** The analyser node is identified with the context that created it. *)
Definition startAudioLevelMonitoring (lvl : nat) (stream : positive)
  : Handler unit :=
  let* c := newAudioContext in
  update (fun w => with_audioContextRef w (Some c)) >>
  update (fun w => with_analyserRef w (Some c)) >>
  updateAudioLevel lvl.

Definition stopAudioLevelMonitoring : Handler unit :=
  (let* a := get (fun w => animationRef (refs w)) in
   when_some a (fun a =>
     cancelAnimationFrame a >>
     update (fun w => with_animationRef w None))) >>
  (let* c := get (fun w => audioContextRef (refs w)) in
   when_some c (fun c =>
     closeAudioContext c >>
     update (fun w => with_audioContextRef w None))) >>
  update (fun w => with_analyserRef w None) >>
  setAudioLevel 0.

Definition microphoneError : string :=
  "Could not access microphone. Please allow microphone access.".

(** [startRecording], from the point where [getUserMedia] settles:
    nothing but logging precedes the [await]. [lvl] is the first metering
    sample. *)
Definition startRecording (granted : bool) (lvl : nat) : Handler unit :=
  try_catch
    (let* stream := getUserMedia granted in
     update (fun w => with_streamRef w (Some stream)) >>
     let* mediaRecorder := newMediaRecorder stream in
     update (fun w => with_mediaRecorderRef w (Some mediaRecorder)) >>
     startAudioLevelMonitoring lvl stream >>
     recorder_start mediaRecorder >>
     setIsRecording true >>
     setRecordingTime 0 >>
     let* i := setInterval in
     update (fun w => with_intervalRef w (Some i)))
    (fun _ => setError (Some microphoneError)).

(** [mediaRecorder.ondataavailable] of recorder [r]. *)
Definition ondataavailable (r : positive) (data : Chunk) : Handler unit :=
  if (0 <? length data)%nat then
    update (fun w =>
      with_recorders w (alter (push_chunk data) r (recorders (env w))))
  else ret tt.

(** [mediaRecorder.onstop] of recorder [r]; [stream] and [chunks] are the
    ones the recorder was created with. *)
Definition onstop (r : positive) : Handler unit :=
  let* m := get (fun w => recorders (env w) !! r) in
  when_some m (fun m =>
    (let* cancelling := get (fun w => isCancellingRef (refs w)) in
     if negb cancelling then
       let blob := {| blob_parts := mr_chunks m; blob_type := "audio/wav" |} in
       setRecordedBlob (Some blob) >>
       update (fun w => with_audioSrc w (Some blob))
     else ret tt) >>
    stopTracks (mr_stream m) >>
    let* cancelling := get (fun w => isCancellingRef (refs w)) in
    if cancelling then setTimeout CbResetCancelling else ret tt).

(** The interval callback: [setRecordingTime((prev) => prev + 1)]. *)
Definition tick : Handler unit :=
  update (fun w => with_recordingTime w (recordingTime (ui w) + 1)).

Definition pauseRecording : Handler unit :=
  let* r := get (fun w => mediaRecorderRef (refs w)) in
  let* rec := get (fun w => isRecording (ui w)) in
  let* pau := get (fun w => isPaused (ui w)) in
  match r with
  | Some r =>
      if rec && negb pau then
        recorder_pause r >>
        setIsPaused true >>
        (let* i := get (fun w => intervalRef (refs w)) in
         when_some i clearInterval) >>
        stopAudioLevelMonitoring
      else ret tt
  | None => ret tt
  end.

Definition resumeRecording (lvl : nat) : Handler unit :=
  let* r := get (fun w => mediaRecorderRef (refs w)) in
  let* rec := get (fun w => isRecording (ui w)) in
  let* pau := get (fun w => isPaused (ui w)) in
  match r with
  | Some r =>
      if rec && pau then
        recorder_resume r >>
        setIsPaused false >>
        (let* i := setInterval in
         update (fun w => with_intervalRef w (Some i))) >>
        let* s := get (fun w => streamRef (refs w)) in
        when_some s (startAudioLevelMonitoring lvl)
      else ret tt
  | None => ret tt
  end.

Definition stopRecording : Handler unit :=
  let* r := get (fun w => mediaRecorderRef (refs w)) in
  let* rec := get (fun w => isRecording (ui w)) in
  let* pau := get (fun w => isPaused (ui w)) in
  match r with
  | Some r =>
      if rec || pau then
        recorder_stop r >>
        setIsRecording false >>
        setIsPaused false >>
        (let* i := get (fun w => intervalRef (refs w)) in
         when_some i clearInterval) >>
        stopAudioLevelMonitoring
      else ret tt
  | None => ret tt
  end.

Definition cancelRecording : Handler unit :=
  update (fun w => with_isCancellingRef w true) >>
  (let* r := get (fun w => mediaRecorderRef (refs w)) in
   let* rec := get (fun w => isRecording (ui w)) in
   let* pau := get (fun w => isPaused (ui w)) in
   match r with
   | Some r => if rec || pau then recorder_stop r else ret tt
   | None => ret tt
   end) >>
  setIsRecording false >>
  setIsPaused false >>
  setRecordingTime 0 >>
  setRecordedBlob None >>
  setIsPlaying false >>
  (let* i := get (fun w => intervalRef (refs w)) in
   when_some i clearInterval) >>
  (let* s := get (fun w => streamRef (refs w)) in
   when_some s (fun s =>
     stopTracks s >>
     update (fun w => with_streamRef w None))) >>
  stopAudioLevelMonitoring >>
  update (fun w => with_audioSrc w None).

(** ** File intake, submission and downloads *)

Definition unsupportedTypeError : string :=
  "Please select a .txt file or audio file (.mp3, .m4a, .wav)".

Definition uploadError : string := "Failed to process file. Please try again.".

(** The canned note of the fallback branch; it quotes the file name. *)
Definition mockSoapNote (name : string) : string :=
  "SOAP Note - " +:+ name +:+ "

SUBJECTIVE:
Patient presents for routine dental examination and cleaning.

OBJECTIVE:
- Vital signs: BP 120/80, HR 72, Temp 98.6°F
- Oral examination reveals good oral hygiene
- No visible cavities or signs of periodontal disease
- Gingiva appears healthy with no bleeding on probing

ASSESSMENT:
- Patient in good oral health
- No active dental disease detected
- Recommend continued preventive care

PLAN:
- Completed routine dental cleaning
- Applied fluoride treatment
- Scheduled 6-month follow-up appointment
- Reinforced oral hygiene instructions".

Definition mockPatientSummary : string :=
  "Your Dental Visit Summary

Today's Visit:
• We completed your routine dental cleaning and examination
• Your teeth and gums are in excellent health
• No cavities or other dental problems were found

What We Did:
• Thoroughly cleaned your teeth and removed any plaque buildup
• Applied a fluoride treatment to strengthen your teeth
• Conducted a complete oral health examination

Next Steps:
• Continue your daily brushing and flossing routine
• Schedule your next cleaning in 6 months
• Call us if you experience any dental pain or concerns

Your oral health is excellent! Keep up the great work with your daily dental care routine.".

Definition mockResponse (f : File) : OutputData :=
  {| soapNote := JStr (mockSoapNote (file_name f));
     patientSummary := JStr mockPatientSummary |}.

Definition isTextFile (f : File) : bool :=
  String.eqb (file_type f) "text/plain" || Js.endsWith (file_name f) ".txt".

Definition isAudioFile (f : File) : bool :=
  Js.startsWith (file_type f) "audio/" ||
  Js.endsWith (file_name f) ".mp3" ||
  Js.endsWith (file_name f) ".m4a" ||
  Js.endsWith (file_name f) ".wav".

Definition handleFileSelect (selectedFile : File) : Handler unit :=
  if isTextFile selectedFile || isAudioFile selectedFile then
    setFile (Some selectedFile) >>
    setError None
  else
    setError (Some unsupportedTypeError) >>
    setFile None.

(** [handleDrop], and the [onChange] of the hidden file input: the first
    file of the list, if there is one. *)
Definition handleDrop (files : list File) : Handler unit :=
  match files with
  | droppedFile :: _ => handleFileSelect droppedFile
  | [] => ret tt
  end.

Definition generateRecordingFilename (now : Date) : string :=
  let date := Js.split_head "T" (toISOString now) in
  let time := Js.replace_all ":" "-" (Js.split_head " " (toTimeString now)) in
  "recording_" +:+ date +:+ "_" +:+ time +:+ ".wav".

Definition playRecording : Handler unit :=
  let* b := get (fun w => recordedBlob (ui w)) in
  let* playing := get (fun w => isPlaying (ui w)) in
  match b with
  | Some _ =>
      if playing then
        update (fun w => with_audioPlaying w false) >> setIsPlaying false
      else
        update (fun w => with_audioPlaying w true) >> setIsPlaying true
  | None => ret tt
  end.

(** What a synthetic [<a download>] click hands to the browser. *)
Record Download (A : Type) := {
  dl_filename : string;
  dl_mime : string;
  dl_content : A
}.

Arguments dl_filename {A} _.
Arguments dl_mime {A} _.
Arguments dl_content {A} _.

Definition downloadRecording (now : Date) (w : World) : option (Download Blob) :=
  match recordedBlob (ui w) with
  | Some b =>
      Some {| dl_filename := generateRecordingFilename now;
              dl_mime := blob_type b; dl_content := b |}
  | None => None
  end.

Definition useRecording (now : Date) : Handler unit :=
  let* b := get (fun w => recordedBlob (ui w)) in
  when_some b (fun b =>
    let file := {| file_name := generateRecordingFilename now;
                   file_type := "audio/wav";
                   file_parts := blob_parts b |} in
    setFile (Some file) >>
    setShowRecorder false >>
    setError None).

Definition clearRecording : Handler unit :=
  setRecordedBlob None >>
  setRecordingTime 0 >>
  setIsPlaying false >>
  setIsPaused false >>
  update (fun w => with_isCancellingRef w false) >>
  stopAudioLevelMonitoring >>
  update (fun w => with_audioSrc w None).

Definition downloadFile (content : JsValue) (type : string) (now : Date)
    (w : World) : Download JsValue :=
  let originalName :=
    match file (ui w) with
    | Some f => Js.strip_extension (file_name f)
    | None => "patient-visit"
    end in
  let timestamp := Js.split_head "T" (toISOString now) in
  let filename := originalName +:+ "_" +:+ type +:+ "_" +:+ timestamp +:+ ".txt" in
  {| dl_filename := filename; dl_mime := "text/plain"; dl_content := content |}.

(** The [onClick] of the reset button under the generated notes. *)
Definition generateAnotherNote : Handler unit :=
  setFile None >>
  setOutput None >>
  setError None >>
  setOutputSelection {| sel_soapNote := true; sel_patientSummary := true |} >>
  setShowRecorder false >>
  setRecordedBlob None >>
  setRecordingTime 0 >>
  setIsPlaying false >>
  setIsRecording false >>
  setIsPaused false >>
  update (fun w => with_isCancellingRef w false) >>
  stopAudioLevelMonitoring >>
  update (fun w => with_fileInputValue w "") >>
  update (fun w => with_audioSrc w None).

(** Teardown runs the cleanup functions the component's effects returned.
    The only effect of the component logs state changes and returns
    none. *)
Definition effectCleanups : list (Handler unit) := [].

Definition unmount : Handler unit :=
  fold_right (fun c k => c >> k) (ret tt) effectCleanups.

(** A settled [fetch]: a rejection, or a response with what its accessors
    give. [resp_json] is [None] when [response.json()] rejects. *)
Record Response := {
  resp_status : nat;
  resp_contentType : option string;
  resp_text : string;
  resp_json : option JsValue
}.

(** [response.ok]: the status is in the range 200-299. *)
Definition resp_ok (r : Response) : bool :=
  (200 <=? resp_status r)%nat && (resp_status r <=? 299)%nat.

Inductive FetchResult :=
| NetworkError
| Responded (r : Response).

(** [ToBoolean]. *)
Definition truthy (v : JsValue) : bool :=
  match v with
  | JUndefined | JNull => false
  | JBool b => b
  | JNum n => negb (n =? 0)%Z
  | JStr s => negb (String.eqb s "")
  | JArr _ | JObj _ => true
  end.

(** The own property [k] of an object given by its fields. *)
Fixpoint field (k : string) (fields : list (string * JsValue)) : JsValue :=
  match fields with
  | [] => JUndefined
  | (k', v) :: rest => if String.eqb k' k then v else field k rest
  end.

(** [v.k] for a name [k] that no prototype defines: a [TypeError] on
    [null] and [undefined], the field of an object, [undefined] on every
    other value. *)
Definition get_prop (v : JsValue) (k : string) : Handler JsValue :=
  match v with
  | JUndefined | JNull => throw "TypeError"
  | JObj fields => ret (field k fields)
  | _ => ret JUndefined
  end.

(** [a && b] *)
Definition js_and (a b : Handler JsValue) : Handler JsValue :=
  let* x := a in
  if truthy x then b else ret x.

Definition dquote : string := String (ascii_of_nat 34) EmptyString.

Definition isJsonContentType (contentType : option string) : bool :=
  match contentType with
  | None => false
  | Some ct => negb (String.eqb ct "") && Js.includes ct "application/json"
  end.

(** [handleUpload] up to its first [await]. It hands the file it closed
    over to the rest of the call. *)
Definition handleUpload_begin : Handler (option File) :=
  let* f := get (fun w => file (ui w)) in
  match f with
  | None => ret None
  | Some f =>
      setIsUploading true >>
      setError None >>
      ret (Some f)
  end.

(** [handleUpload] from the point where the request has settled. *)
Definition handleUpload_settled (file : File) (res : FetchResult)
  : Handler unit :=
  finally
    (try_catch
       (let* response :=
          match res with
          | NetworkError => throw "TypeError: Failed to fetch"
          | Responded r => ret r
          end in
        if negb (resp_ok response) then
          throw ("HTTP error! status: " +:+ Js.of_nat (resp_status response))
        else if negb (isJsonContentType (resp_contentType response)) then
          throw ("Expected JSON response, but received: " +:+ dquote +:+
                 resp_text response +:+ dquote +:+
                 ". Please check your Make.com webhook configuration.")
        else
          let* result :=
            match resp_json response with
            | Some v => ret v
            | None => throw "SyntaxError"
            end in
          let* both := js_and (get_prop result "soap_note_text")
                              (get_prop result "patient_summary_text") in
          if truthy both then
            let* a := get_prop result "soap_note_text" in
            let* b := get_prop result "patient_summary_text" in
            setOutput (Some {| soapNote := a; patientSummary := b |})
          else
            let* legacy := js_and (get_prop result "soapNote")
                                  (get_prop result "patientSummary") in
            if truthy legacy then
              let* a := get_prop result "soapNote" in
              let* b := get_prop result "patientSummary" in
              setOutput (Some {| soapNote := a; patientSummary := b |})
            else
              setOutput (Some (mockResponse file)))
       (fun _ => setError (Some uploadError)))
    (setIsUploading false).

(** The whole call, when nothing else happens while the request is in
    flight. *)
Definition handleUpload (res : FetchResult) : Handler unit :=
  let* f := handleUpload_begin in
  when_some f (fun f => handleUpload_settled f res).

(** ** The component as a reactive system *)

Definition initialWorld : World :=
  {| ui := {| file := None; isUploading := false; output := None;
              error := None;
              outputSelection :=
                {| sel_soapNote := true; sel_patientSummary := true |};
              isRecording := false; isPaused := false; recordedBlob := None;
              recordingTime := 0; isPlaying := false; showRecorder := false;
              audioLevel := 0 |};
     refs := {| isCancellingRef := false; mediaRecorderRef := None;
                streamRef := None; intervalRef := None;
                audioContextRef := None; analyserRef := None;
                animationRef := None; audioSrc := None;
                audioPlaying := false; fileInputValue := "" |};
     env := {| next_id := 1; streams := ∅; recorders := ∅; intervals := ∅;
               frames := ∅; contexts := ∅; tasks := []; timeouts := [];
               pendingGetUserMedia := 0; pendingFetches := [] |} |}.

(** What the user and the browser can do to the component. *)
Inductive Event :=
| ClickStartRecording                 (* the button of the closed recorder panel *)
| ClickStartInPanel                   (* the button inside the open panel *)
| TimeoutFires
| GetUserMediaSettles (granted : bool) (lvl : nat)
| ClickPause
| ClickResume (lvl : nat)
| ClickStop
| ClickCancel
| RecorderTask (data : Chunk)         (* the queued dataavailable + stop events *)
| IntervalFires (i : positive)
| AnimationFrame (a : positive) (lvl : nat)
| ClickPlay
| ClickUseRecording (now : Date)
| ClickRecordAgain
| SelectFiles (files : list File)     (* a drop, or a change of the file input *)
| ClickGenerate
| FetchSettles (res : FetchResult)
| ClickGenerateAnother
| Unmount.

(** Calling [startRecording]: it suspends at [getUserMedia] at once. *)
Definition callStartRecording : Handler unit :=
  update (fun w => with_pendingGetUserMedia w (S (pendingGetUserMedia (env w)))).

Definition dispatch (e : Event) : Handler unit :=
  match e with
  | ClickStartRecording => setShowRecorder true >> setTimeout CbStartRecording
  | ClickStartInPanel => callStartRecording
  | TimeoutFires =>
      let* q := get (fun w => timeouts (env w)) in
      match q with
      | [] => ret tt
      | cb :: rest =>
          update (fun w => with_timeouts w rest) >>
          match cb with
          | CbStartRecording => callStartRecording
          | CbResetCancelling => update (fun w => with_isCancellingRef w false)
          end
      end
  | GetUserMediaSettles granted lvl =>
      update (fun w =>
        with_pendingGetUserMedia w (pred (pendingGetUserMedia (env w)))) >>
      startRecording granted lvl
  | ClickPause => pauseRecording
  | ClickResume lvl => resumeRecording lvl
  | ClickStop => stopRecording
  | ClickCancel => cancelRecording
  | RecorderTask data =>
      let* q := get (fun w => tasks (env w)) in
      match q with
      | [] => ret tt
      | r :: rest =>
          update (fun w => with_tasks w rest) >>
          ondataavailable r data >>
          onstop r
      end
  | IntervalFires i =>
      let* live := get (fun w => bool_decide (i ∈ intervals (env w))) in
      if live then tick else ret tt
  | AnimationFrame a lvl =>
      let* due := get (fun w => bool_decide (a ∈ frames (env w))) in
      if due then
        update (fun w => with_frames w (frames (env w) ∖ {[a]})) >>
        updateAudioLevel lvl
      else ret tt
  | ClickPlay => playRecording
  | ClickUseRecording now => useRecording now
  | ClickRecordAgain => clearRecording
  | SelectFiles files => handleDrop files
  | ClickGenerate =>
      let* f := handleUpload_begin in
      when_some f (fun f =>
        update (fun w => with_pendingFetches w (pendingFetches (env w) ++ [f])))
  | FetchSettles res =>
      let* q := get (fun w => pendingFetches (env w)) in
      match q with
      | [] => ret tt
      | f :: rest =>
          update (fun w => with_pendingFetches w rest) >>
          handleUpload_settled f res
      end
  | ClickGenerateAnother => generateAnotherNote
  | Unmount => unmount
  end.

Definition non_empty {A} (l : list A) : bool :=
  match l with [] => false | _ :: _ => true end.

(** When an event can happen: the rendering condition of the control it
    comes from, or the presence of what the browser would deliver. *)
Definition enabled (e : Event) (w : World) : bool :=
  let u := ui w in
  let has_output := bool_decide (is_Some (output u)) in
  let has_blob := bool_decide (is_Some (recordedBlob u)) in
  match e with
  | ClickStartRecording =>
      negb (showRecorder u) && negb (isUploading u || has_output)
  | ClickStartInPanel =>
      showRecorder u && negb (isRecording u) && negb has_blob
  | TimeoutFires => non_empty (timeouts (env w))
  | GetUserMediaSettles _ _ => (0 <? pendingGetUserMedia (env w))%nat
  | ClickPause => showRecorder u && isRecording u && negb (isPaused u)
  | ClickResume _ => showRecorder u && isRecording u && isPaused u
  | ClickStop | ClickCancel => showRecorder u && isRecording u
  | RecorderTask _ => non_empty (tasks (env w))
  | IntervalFires i => bool_decide (i ∈ intervals (env w))
  | AnimationFrame a _ => bool_decide (a ∈ frames (env w))
  | ClickPlay | ClickUseRecording _ | ClickRecordAgain =>
      showRecorder u && has_blob && negb (isRecording u)
  | SelectFiles _ => true
  | ClickGenerate =>
      bool_decide (is_Some (file u)) && negb (isUploading u) &&
      (sel_soapNote (outputSelection u) || sel_patientSummary (outputSelection u))
  | FetchSettles _ => non_empty (pendingFetches (env w))
  | ClickGenerateAnother => has_output
  | Unmount => true
  end.

(** A run of the component: every event must be possible when it occurs. *)
Fixpoint play (es : list Event) (w : World) : option World :=
  match es with
  | [] => Some w
  | e :: es' => if enabled e w then play es' (run (dispatch e) w) else None
  end.

(** One second of wall-clock time: every live interval fires once. *)
Definition second_passes (w : World) : World :=
  Nat.iter (size (intervals (env w))) (run tick) w.

(** ** Notions used in the statements, and sample data *)

Definition has_suffix (s suf : string) : Prop := exists p, s = p +:+ suf.

Definition has_prefix (s pre : string) : Prop := exists r, s = pre +:+ r.

(** The shape [dddd-dd-dd]. *)
Definition isoDateShape (s : string) : bool :=
  match s with
  | String y1 (String y2 (String y3 (String y4 (String "-"
      (String m1 (String m2 (String "-"
        (String d1 (String d2 EmptyString))))))))) =>
      forallb Js.is_digit [y1; y2; y3; y4; m1; m2; d1; d2]
  | _ => false
  end.

(** The shape [dd-dd-dd]. *)
Definition clockShape (s : string) : bool :=
  match s with
  | String h1 (String h2 (String "-" (String m1 (String m2 (String "-"
      (String s1 (String s2 EmptyString))))))) =>
      forallb Js.is_digit [h1; h2; m1; m2; s1; s2]
  | _ => false
  end.

(** The date and the time of day as the spec names them. *)
Definition isoDate (d : Date) : string :=
  Js.fixed 4 (utcFullYear d) +:+ "-" +:+ Js.fixed 2 (utcMonth d) +:+ "-"
  +:+ Js.fixed 2 (utcDate d).

Definition clockTime (d : Date) : string :=
  Js.fixed 2 (localHours d) +:+ "-" +:+ Js.fixed 2 (localMinutes d) +:+ "-"
  +:+ Js.fixed 2 (localSeconds d).

(** [<basename>_<type>_<date>.txt] and [recording_<date>_<time>.wav]. *)
Definition noteFilename (basename type date : string) : string :=
  basename +:+ "_" +:+ type +:+ "_" +:+ date +:+ ".txt".

Definition recordingFilename (date time : string) : string :=
  "recording_" +:+ date +:+ "_" +:+ time +:+ ".wav".

Definition sampleDate : Date :=
  {| utcFullYear := 2025; utcMonth := 3; utcDate := 9; utcHours := 23;
     utcMinutes := 5; utcSeconds := 7; utcMilliseconds := 42;
     localHours := 0; localMinutes := 5; localSeconds := 7;
     zoneText := "GMT+0100 (Central European Standard Time)" |}.

Definition sampleAudio : File :=
  {| file_name := "dr.lee.visit.mp3"; file_type := "audio/mpeg";
     file_parts := [] |}.

(** The accepted set in the words of the spec: [.txt] or [text/plain],
    [.mp3], [.m4a], [.wav], or a MIME type beginning [audio/]. *)
Definition accepted_type (f : File) : Prop :=
  file_type f = "text/plain" \/ has_suffix (file_name f) ".txt" \/
  has_prefix (file_type f) "audio/" \/ has_suffix (file_name f) ".mp3" \/
  has_suffix (file_name f) ".m4a" \/ has_suffix (file_name f) ".wav".

Definition sampleSpreadsheet : File :=
  {| file_name := "visits.xlsx";
     file_type := "application/vnd.ms-excel";
     file_parts := [] |}.

(** [v.k] where it does not throw. *)
Definition prop (v : JsValue) (k : string) : JsValue :=
  match v with
  | JObj fields => field k fields
  | _ => JUndefined
  end.

Definition pair_present (v : JsValue) (k1 k2 : string) : bool :=
  truthy (prop v k1) && truthy (prop v k2).

(** What a parsed body makes the component render. *)
Definition rendered (f : File) (v : JsValue) : OutputData :=
  if pair_present v "soap_note_text" "patient_summary_text" then
    {| soapNote := prop v "soap_note_text";
       patientSummary := prop v "patient_summary_text" |}
  else if pair_present v "soapNote" "patientSummary" then
    {| soapNote := prop v "soapNote";
       patientSummary := prop v "patientSummary" |}
  else mockResponse f.

Definition nullish (v : JsValue) : bool :=
  match v with
  | JUndefined | JNull => true
  | _ => false
  end.

(** A response that passes both checks of [handleUpload]. *)
Definition json_success (r : Response) (v : JsValue) : Prop :=
  resp_ok r = true /\ isJsonContentType (resp_contentType r) = true /\
  resp_json r = Some v.

Definition sampleOutput : OutputData :=
  {| soapNote := JStr "S: earlier note"; patientSummary := JStr "Earlier summary" |}.

Definition jsonResponse (v : JsValue) : Response :=
  {| resp_status := 200;
     resp_contentType := Some "application/json; charset=utf-8";
     resp_text := "";
     resp_json := Some v |}.

Definition serverErrorResponse : Response :=
  {| resp_status := 500; resp_contentType := Some "text/html";
     resp_text := "Internal Server Error"; resp_json := None |}.

(** The object without its field [k]. *)
Fixpoint remove_field (k : string) (fields : list (string * JsValue))
  : list (string * JsValue) :=
  match fields with
  | [] => []
  | (k', v) :: rest =>
      if String.eqb k' k then remove_field k rest
      else (k', v) :: remove_field k rest
  end.

Definition newPair (v : JsValue) : OutputData :=
  {| soapNote := prop v "soap_note_text";
     patientSummary := prop v "patient_summary_text" |}.

Definition legacyPair (v : JsValue) : OutputData :=
  {| soapNote := prop v "soapNote";
     patientSummary := prop v "patientSummary" |}.

Definition emptyNoteBody : JsValue :=
  JObj [("soap_note_text", JStr ""); ("patient_summary_text", JStr "All is well.")].

Definition mixedBody : JsValue :=
  JObj [("soap_note_text", JStr "");
        ("patient_summary_text", JStr "Summary, new format");
        ("soapNote", JStr "Note, old format");
        ("patientSummary", JStr "Summary, old format")].

(** What the two session states have in common: the flags say a
    recording is under way, the refs hold the recorder [r] and the stream
    [s] it captures, the stream has had no release call yet, and no
    recorder event is queued. *)
Record Session (w : World) (r s : positive) : Prop := {
  ses_isRecording : isRecording (ui w) = true;
  ses_recorder : mediaRecorderRef (refs w) = Some r;
  ses_stream : streamRef (refs w) = Some s;
  ses_captured : mr_stream <$> recorders (env w) !! r = Some s;
  ses_live : streams (env w) !! s = Some 0;
  ses_tasks : tasks (env w) = []
}.

(** State [Recording]: the recorder runs, the one-second interval [i] and
    the metering refresh [a] are the only periodic callbacks alive. *)
Record Recording (w : World) (r s i a c : positive) : Prop := {
  rec_session : Session w r s;
  rec_isPaused : isPaused (ui w) = false;
  rec_state : recorder_state r w = recording;
  rec_intervalRef : intervalRef (refs w) = Some i;
  rec_intervals : intervals (env w) = {[i]};
  rec_animationRef : animationRef (refs w) = Some a;
  rec_frames : frames (env w) = {[a]};
  rec_audioContextRef : audioContextRef (refs w) = Some c
}.

(** State [Paused]: the recorder is paused and no periodic callback is
    alive; [intervalRef] still holds the handle of the cleared interval. *)
Record Paused (w : World) (r s : positive) : Prop := {
  pau_session : Session w r s;
  pau_isPaused : isPaused (ui w) = true;
  pau_state : recorder_state r w = paused;
  pau_intervals : intervals (env w) = ∅;
  pau_animationRef : animationRef (refs w) = None;
  pau_frames : frames (env w) = ∅;
  pau_audioContextRef : audioContextRef (refs w) = None
}.

Definition InSession (w : World) (r s : positive) : Prop :=
  (exists i a c, Recording w r s i a c) \/ Paused w r s.

(** The recorder [r] has been stopped and its stop event is the one
    queued; its stream [s] has had [k] release calls. *)
Record Stopping (w : World) (r s : positive) (k : nat) : Prop := {
  stp_tasks : tasks (env w) = [r];
  stp_captured : mr_stream <$> recorders (env w) !! r = Some s;
  stp_calls : streams (env w) !! s = Some k
}.

(** Both periodic callbacks are cancelled: no interval and no animation
    frame is left to fire. *)
Definition Quiet (w : World) : Prop :=
  intervals (env w) = ∅ /\ frames (env w) = ∅.

(** After [stopRecording] on a session of the world [w]. *)
Record AfterStop (w w' : World) (r s : positive) : Prop := {
  as_isRecording : isRecording (ui w') = false;
  as_isPaused : isPaused (ui w') = false;
  as_quiet : Quiet w';
  as_stopping : Stopping w' r s 0;
  as_blob : recordedBlob (ui w') = recordedBlob (ui w);
  as_flag : isCancellingRef (refs w') = isCancellingRef (refs w)
}.

(** After [cancelRecording] on a session. *)
Record AfterCancel (w' : World) (r s : positive) : Prop := {
  ac_isRecording : isRecording (ui w') = false;
  ac_isPaused : isPaused (ui w') = false;
  ac_blob : recordedBlob (ui w') = None;
  ac_time : recordingTime (ui w') = 0;
  ac_quiet : Quiet w';
  ac_stopping : Stopping w' r s 1;
  ac_flag : isCancellingRef (refs w') = true;
  ac_streamRef : streamRef (refs w') = None
}.

(** After the queued stop event of a recorder has been delivered to the
    world [w]. *)
Record AfterStopEvent (w w' : World) (s : positive) (k : nat) : Prop := {
  ase_calls : streams (env w') !! s = Some (S k);
  ase_tasks : tasks (env w') = [];
  ase_intervals : intervals (env w') = intervals (env w);
  ase_frames : frames (env w') = frames (env w);
  ase_suppressed :
    isCancellingRef (refs w) = true ->
    recordedBlob (ui w') = recordedBlob (ui w) /\
    audioSrc (refs w') = audioSrc (refs w);
  ase_finalised :
    isCancellingRef (refs w) = false ->
    exists parts,
      recordedBlob (ui w') =
        Some {| blob_parts := parts; blob_type := "audio/wav" |}
}.

Definition startTrace : list Event :=
  [ClickStartRecording; TimeoutFires; GetUserMediaSettles true 0].

(** The world after the user has started a recording from scratch: stream
    1, recorder 2, audio context 3, animation frame 4, interval 5. *)
Definition recordingWorld : World :=
  default initialWorld (play startTrace initialWorld).

Definition pausedWorld : World := run pauseRecording recordingWorld.

(** A recording is started, a file is dropped and submitted while it
    runs, and the reset button under the generated notes is pressed. *)
Definition resetWhileRecording : list Event :=
  startTrace ++
  [SelectFiles [sampleAudio]; ClickGenerate;
   FetchSettles (Responded (jsonResponse (JObj [])));
   ClickGenerateAnother].

Definition release_calls (s : positive) (w : option World) : option nat :=
  w ≫= fun w => streams (env w) !! s.

(** The world after the microphone has been refused once. *)
Definition deniedWorld : World :=
  default initialWorld
    (play [ClickStartRecording; TimeoutFires; GetUserMediaSettles false 0]
          initialWorld).

(** ** Further functions of the component *)

(** [s.padStart(n, c)] for a one-character filler. *)
Definition padStart (n : nat) (c : ascii) (s : string) : string :=
  Nat.iter (n - String.length s) (String c) s.

Definition formatTime (seconds : nat) : string :=
  let mins := seconds / 60 in
  let secs := seconds mod 60 in
  padStart 2 "0" (Js.of_nat mins) +:+ ":" +:+ padStart 2 "0" (Js.of_nat secs).




(** The two session flags agree: the component is never paused without
    recording. *)
Definition flags_consistent (w : World) : Prop :=
  isPaused (ui w) = true -> isRecording (ui w) = true.

(** The recorder [r] has been stopped by [stopRecording]: its stop event
    is the one queued, it has gathered the chunks [cs], and no
    cancellation is under way. *)
Record AwaitingStop (w : World) (r s : positive) (cs : list Chunk) : Prop := {
  aws_tasks : tasks (env w) = [r];
  aws_captured : mr_stream <$> recorders (env w) !! r = Some s;
  aws_chunks : mr_chunks <$> recorders (env w) !! r = Some cs;
  aws_flag : isCancellingRef (refs w) = false;
  aws_isRecording : isRecording (ui w) = false;
  aws_isPaused : isPaused (ui w) = false
}.

(** The chunks a blob is made of once the last [dataavailable] event has
    brought [data]: an empty last chunk is not kept. *)
Definition gathered (cs : list Chunk) (data : Chunk) : list Chunk :=
  if (0 <? length data)%nat then cs ++ [data] else cs.

(** The name of a recording without its [.wav] extension. *)
Definition recordingStem (now : Date) : string :=
  "recording_" +:+ Js.split_head "T" (toISOString now) +:+ "_" +:+
  Js.replace_all ":" "-" (Js.split_head " " (toTimeString now)).

(** The world after a recording has been started, stopped, and its stop
    event delivered with two bytes of data. *)
Definition stoppedWorld : World :=
  default initialWorld
    (play (startTrace ++ [ClickStop; RecorderTask [Byte.x52; Byte.x49]])
          initialWorld).

(** The component as it was before the content type of the response was
    checked: the earlier [App] of the same file. *)
Module Original.

(** [handleUpload] from the point where the request has settled. *)
Definition handleUpload_settled (file : File) (res : FetchResult)
  : Handler unit :=
  finally
    (try_catch
       (let* response :=
          match res with
          | NetworkError => throw "TypeError: Failed to fetch"
          | Responded r => ret r
          end in
        if negb (resp_ok response) then
          throw ("HTTP error! status: " +:+ Js.of_nat (resp_status response))
        else
          let* result :=
            match resp_json response with
            | Some v => ret v
            | None => throw "SyntaxError"
            end in
          let* both := js_and (get_prop result "soap_note_text")
                              (get_prop result "patient_summary_text") in
          if truthy both then
            let* a := get_prop result "soap_note_text" in
            let* b := get_prop result "patient_summary_text" in
            setOutput (Some {| soapNote := a; patientSummary := b |})
          else
            let* legacy := js_and (get_prop result "soapNote")
                                  (get_prop result "patientSummary") in
            if truthy legacy then
              let* a := get_prop result "soapNote" in
              let* b := get_prop result "patientSummary" in
              setOutput (Some {| soapNote := a; patientSummary := b |})
            else
              setOutput (Some (mockResponse file)))
       (fun _ => setError (Some uploadError)))
    (setIsUploading false).

(** The [onClick] of the reset button. *)
Definition generateAnotherNote : Handler unit :=
  setFile None >>
  setOutput None >>
  setError None >>
  update (fun w => with_fileInputValue w "").

End Original.

Definition bothBody : JsValue :=
  JObj [("soapNote", JStr "Note, old format");
        ("patientSummary", JStr "Summary, old format");
        ("soap_note_text", JStr "Note, new format");
        ("patient_summary_text", JStr "Summary, new format")].

(** The response [r] with its content type replaced by the JSON one. *)
Definition labelled_json (r : Response) : Response :=
  {| resp_status := resp_status r;
     resp_contentType := Some "application/json";
     resp_text := resp_text r;
     resp_json := resp_json r |}.

(** A file has been selected and accepted. *)
Definition selectedWorld : World := with_file initialWorld (Some sampleAudio).


(** A note has been generated from an uploaded file. *)
Definition notedWorld : World :=
  with_output selectedWorld (Some sampleOutput).

(** One submission at a time: a request is in flight exactly while
    [isUploading] is set, and then there is one. *)
Definition single_flight (w : World) : Prop :=
  length (pendingFetches (env w)) = if isUploading (ui w) then 1 else 0.

(** The operations on a recorder change nothing but the recorders and the
    queue of their events. *)
Definition browser_only (m : Handler unit) : Prop :=
  forall w, exists c recs tks,
    m w = (c, with_tasks (with_recorders w recs) tks).

(** ** The session held by the component *)

(** The component holds the session of recorder [r] and stream [s] in
    state [Recording] or [Paused]: the recording flag is set, the refs hold
    [r] and [s], [r] captures [s] and has not been stopped, and [s] has had
    no release call yet. Nothing is said about the periodic callbacks or
    about the recorder events that are queued. *)
Record Held (w : World) (r s : positive) : Prop := {
  held_isRecording : isRecording (ui w) = true;
  held_recorder : mediaRecorderRef (refs w) = Some r;
  held_stream : streamRef (refs w) = Some s;
  held_captured : mr_stream <$> recorders (env w) !! r = Some s;
  held_running : recorder_state r w <> inactive;
  held_live : streams (env w) !! s = Some 0
}.

(** The interval whose handle is in [intervalRef], if it holds one. *)
Definition held_interval (w : World) : gset positive :=
  match intervalRef (refs w) with Some i => {[i]} | None => ∅ end.

(** The animation frame whose handle is in [animationRef]. *)
Definition held_frame (w : World) : gset positive :=
  match animationRef (refs w) with Some a => {[a]} | None => ∅ end.

(** No periodic callback is alive but those whose handles the refs hold:
    no session displaced from the refs has left one behind. *)
Definition OnlyHeld (w : World) : Prop :=
  intervals (env w) ⊆ held_interval w /\ frames (env w) ⊆ held_frame w.

(** The start button of the closed panel is pressed and, while the
    request for the microphone it schedules is still to come, the start
    button inside the panel that has opened is pressed too; both requests
    are granted. The first start gets stream 1, recorder 2, audio context
    3, animation frame 4 and interval 5; the second one stream 6, recorder
    7, audio context 8, animation frame 9 and interval 10. *)
Definition doubleStart : list Event :=
  [ClickStartRecording; ClickStartInPanel; TimeoutFires;
   GetUserMediaSettles true 0; GetUserMediaSettles true 0].

Definition doubleStartWorld : World :=
  default initialWorld (play doubleStart initialWorld).

(** A recording is cancelled and a new one is started and cancelled
    before the timeout that the first stop event has set has fired; the
    timeout fires between the second cancel and its stop event. *)
Definition cancelRace : list Event :=
  startTrace ++
  [ClickCancel; RecorderTask []; ClickStartInPanel;
   GetUserMediaSettles true 0; ClickCancel; TimeoutFires;
   RecorderTask [Byte.x52; Byte.x49]].

(** The text [sub] occurs somewhere in [s]. *)
Definition has_infix (s sub : string) : Prop :=
  exists pre post, s = pre +:+ sub +:+ post.

(** The content-type header is present and the text [application/json]
    occurs in it. *)
Definition mentions_json (contentType : option string) : Prop :=
  exists ct, contentType = Some ct /\ has_infix ct "application/json".

(** The media type of a content-type header: what precedes its
    parameters. *)
Definition mediaType (contentType : string) : string :=
  Js.split_head ";" contentType.

(** A successful response that is an HTML page. *)
Definition htmlResponse : Response :=
  {| resp_status := 200; resp_contentType := Some "text/html";
     resp_text := "<html><body>Accepted</body></html>";
     resp_json := None |}.

(** Successful responses that are not JSON by their media type, with a
    body that parses all the same. *)
Definition jsonLinesResponse : Response :=
  {| resp_status := 200; resp_contentType := Some "application/jsonl";
     resp_text := "{}"; resp_json := Some (JObj []) |}.

Definition plainTextResponse : Response :=
  {| resp_status := 200;
     resp_contentType := Some "text/plain; note=application/json";
     resp_text := "{}"; resp_json := Some (JObj []) |}.

(** * Properties *)

(** ** Strings and dates *)

#[local] Arguments String.append !s1 s2 : simpl nomatch.

Lemma append_assoc (a b c : string) : (a +:+ b) +:+ c = a +:+ (b +:+ c).
Proof. induction a as [|x a IH]; simpl; [reflexivity | now f_equal]. Qed.

Lemma append_nil_r (a : string) : a +:+ "" = a.
Proof. induction a as [|x a IH]; simpl; [reflexivity | now f_equal]. Qed.

Lemma every_app P (a b : string) :
  Js.every P (a +:+ b) = Js.every P a && Js.every P b.
Proof.
  induction a as [|x a IH]; simpl; [reflexivity |].
  now rewrite IH, andb_assoc.
Qed.

Lemma every_weaken (P Q : ascii -> bool) (s : string) :
  (forall c, P c = true -> Q c = true) ->
  Js.every P s = true -> Js.every Q s = true.
Proof.
  intros HPQ. induction s as [|x s IH]; simpl; [reflexivity |].
  intros [Hx Hs]%andb_prop. rewrite (HPQ _ Hx). now apply IH.
Qed.

Lemma is_digit_digit (n : nat) : Js.is_digit (Js.digit n) = true.
Proof. do 10 (destruct n as [|n]; [reflexivity |]). reflexivity. Qed.

Lemma fixed_digits (k n : nat) : Js.every Js.is_digit (Js.fixed k n) = true.
Proof.
  revert n. induction k as [|k IH]; intros n; simpl; [reflexivity |].
  rewrite every_app, IH. simpl. now rewrite is_digit_digit.
Qed.

Lemma split_head_app (c : ascii) (a b : string) :
  Js.every (fun x => negb (Ascii.eqb x c)) a = true ->
  Js.split_head c (a +:+ String c b) = a.
Proof.
  induction a as [|x a IH]; simpl.
  - intros _. now rewrite Ascii.eqb_refl.
  - intros [Hx Ha]%andb_prop. apply negb_true_iff in Hx. rewrite Hx.
    now rewrite IH.
Qed.

Lemma replace_all_app (c d : ascii) (a b : string) :
  Js.replace_all c d (a +:+ b) = Js.replace_all c d a +:+ Js.replace_all c d b.
Proof. induction a as [|x a IH]; simpl; [reflexivity | now f_equal]. Qed.

Lemma replace_all_id (c d : ascii) (a : string) :
  Js.every (fun x => negb (Ascii.eqb x c)) a = true ->
  Js.replace_all c d a = a.
Proof.
  induction a as [|x a IH]; simpl; [reflexivity |].
  intros [Hx Ha]%andb_prop. apply negb_true_iff in Hx. rewrite Hx.
  now rewrite IH.
Qed.

Lemma digit_not (c : ascii) (x : ascii) :
  Js.is_digit c = false -> Js.is_digit x = true -> negb (Ascii.eqb x c) = true.
Proof.
  intros Hc Hx. apply negb_true_iff, Ascii.eqb_neq. congruence.
Qed.

Lemma fixed_avoids (c : ascii) (k n : nat) :
  Js.is_digit c = false ->
  Js.every (fun x => negb (Ascii.eqb x c)) (Js.fixed k n) = true.
Proof.
  intros Hc. apply every_weaken with (P := Js.is_digit).
  - intros x. now apply digit_not.
  - apply fixed_digits.
Qed.

Lemma endsWith_refl (p : string) : Js.endsWith p p = true.
Proof. destruct p; simpl; [reflexivity |]. now rewrite Ascii.eqb_refl, String.eqb_refl. Qed.

Lemma endsWith_spec (s p : string) :
  Js.endsWith s p = true <-> has_suffix s p.
Proof.
  split.
  - induction s as [|c s IH]; cbn [Js.endsWith].
    + rewrite orb_false_r. intros Heq%String.eqb_eq. subst p. now exists "".
    + intros [Heq | Htl]%orb_prop.
      * apply String.eqb_eq in Heq. subst p. now exists "".
      * destruct (IH Htl) as [q ->]. now exists (String c q).
  - intros [q ->]. induction q as [|c q IH]; simpl.
    + apply endsWith_refl.
    + rewrite IH. apply orb_true_r.
Qed.

Lemma startsWith_spec (s p : string) :
  Js.startsWith s p = true <-> has_prefix s p.
Proof.
  revert s. induction p as [|c p IH]; intros s.
  - split; [intros _; now exists s | now destruct s].
  - destruct s as [|d s]; simpl.
    + split; [discriminate | intros [r Hr]; discriminate].
    + rewrite andb_true_iff, Ascii.eqb_eq, IH. split.
      * intros [-> [r ->]]. now exists r.
      * intros [r Hr]. injection Hr as -> ->. split; [reflexivity | now exists r].
Qed.

(** A text containing a dot is not an extension. *)
Lemma ext_tail_dot (a b : string) : Js.ext_tail (a +:+ String "." b) = false.
Proof.
  unfold Js.ext_tail. rewrite every_app. simpl.
  now rewrite !andb_false_r.
Qed.

(** Stripping removes exactly a final extension: a dot followed by one or
    more characters other than dot and slash. *)
Lemma strip_extension_ext (base ext : string) :
  Js.ext_tail ext = true ->
  Js.strip_extension (base +:+ String "." ext) = base.
Proof.
  intros Hext. induction base as [|c base IH]; simpl.
  - now rewrite Hext.
  - rewrite ext_tail_dot, andb_false_r. now f_equal.
Qed.

(** A name without a dot is left as it is. *)
Lemma strip_extension_no_dot (s : string) :
  Js.every (fun x => negb (Ascii.eqb x ".")) s = true ->
  Js.strip_extension s = s.
Proof.
  induction s as [|c s IH]; simpl; [reflexivity |].
  intros [Hc Hs]%andb_prop. apply negb_true_iff in Hc. rewrite Hc. simpl.
  now rewrite IH.
Qed.

Lemma isoDate_avoids_T (d : Date) :
  Js.every (fun x => negb (Ascii.eqb x "T")) (isoDate d) = true.
Proof.
  unfold isoDate. rewrite !every_app, !fixed_avoids by reflexivity.
  reflexivity.
Qed.

(** The date part of [toISOString] for a four-digit year. *)
Lemma toISOString_date (d : Date) :
  utcFullYear d <= 9999 ->
  Js.split_head "T" (toISOString d) = isoDate d.
Proof.
  intros Hy. unfold toISOString.
  apply Nat.leb_le in Hy. rewrite Hy.
  set (rest := Js.fixed 2 (utcHours d) +:+ _).
  replace (Js.fixed 4 (utcFullYear d) +:+ "-" +:+ Js.fixed 2 (utcMonth d) +:+
           "-" +:+ Js.fixed 2 (utcDate d) +:+ "T" +:+ rest)
    with (isoDate d +:+ String "T" rest).
  - apply split_head_app, isoDate_avoids_T.
  - unfold isoDate. now rewrite !append_assoc.
Qed.

Lemma isoDate_shape (d : Date) : isoDateShape (isoDate d) = true.
Proof.
  unfold isoDate, Js.fixed. simpl. now rewrite !is_digit_digit.
Qed.

(** The time part of [toTimeString], with colons turned into dashes. *)
Lemma toTimeString_clock (d : Date) :
  Js.replace_all ":" "-" (Js.split_head " " (toTimeString d)) = clockTime d.
Proof.
  unfold toTimeString.
  set (hms := Js.fixed 2 (localHours d) +:+ ":" +:+ Js.fixed 2 (localMinutes d)
              +:+ ":" +:+ Js.fixed 2 (localSeconds d)).
  replace (Js.fixed 2 (localHours d) +:+ ":" +:+ Js.fixed 2 (localMinutes d) +:+
           ":" +:+ Js.fixed 2 (localSeconds d) +:+ " " +:+ zoneText d)
    with (hms +:+ String " " (zoneText d))
    by (unfold hms; now rewrite !append_assoc).
  rewrite split_head_app.
  - unfold hms, clockTime. rewrite !replace_all_app.
    rewrite !(replace_all_id _ _ (Js.fixed _ _)) by (now apply fixed_avoids).
    reflexivity.
  - unfold hms. rewrite !every_app, !fixed_avoids by reflexivity.
    reflexivity.
Qed.

Lemma clockTime_shape (d : Date) : clockShape (clockTime d) = true.
Proof.
  unfold clockTime, Js.fixed. simpl. now rewrite !is_digit_digit.
Qed.

(** ** Download names *)

Lemma generateRecordingFilename_eq (now : Date) :
  utcFullYear now <= 9999 ->
  generateRecordingFilename now =
  recordingFilename (isoDate now) (clockTime now).
Proof.
  intros Hy. unfold generateRecordingFilename, recordingFilename.
  now rewrite toISOString_date, toTimeString_clock.
Qed.

Lemma downloadFile_name (w : World) (content : JsValue) (type : string)
    (now : Date) :
  utcFullYear now <= 9999 ->
  dl_filename (downloadFile content type now w) =
  noteFilename
    (match file (ui w) with
     | Some f => Js.strip_extension (file_name f)
     | None => "patient-visit"
     end) type (isoDate now).
Proof.
  intros Hy. unfold downloadFile, noteFilename. simpl.
  now rewrite toISOString_date.
Qed.

(** C9. Every note download is named [<basename>_<type>_<date>.txt],
    where [date] is the ISO date [YYYY-MM-DD] and [basename] is the active
    file's name with its final extension stripped (the name itself when
    it has no dot, [patient-visit] when no file is active); every
    recorded-audio download is named
    [recording_<YYYY-MM-DD>_<HH-MM-SS>.wav]. Years are four-digit years. *)
Theorem C9_download_filenames (w : World) (content : JsValue)
    (type : string) (now : Date) :
  utcFullYear now <= 9999 ->
  isoDateShape (isoDate now) = true /\
  clockShape (clockTime now) = true /\
  (forall f base ext,
      file (ui w) = Some f ->
      file_name f = base +:+ String "." ext ->
      Js.ext_tail ext = true ->
      dl_filename (downloadFile content type now w) =
      noteFilename base type (isoDate now)) /\
  (forall f,
      file (ui w) = Some f ->
      Js.every (fun x => negb (Ascii.eqb x ".")) (file_name f) = true ->
      dl_filename (downloadFile content type now w) =
      noteFilename (file_name f) type (isoDate now)) /\
  (file (ui w) = None ->
   dl_filename (downloadFile content type now w) =
   noteFilename "patient-visit" type (isoDate now)) /\
  (forall b,
      recordedBlob (ui w) = Some b ->
      dl_filename <$> downloadRecording now w =
      Some (recordingFilename (isoDate now) (clockTime now))).
Proof.
  intros Hy. split; [apply isoDate_shape |]. split; [apply clockTime_shape |].
  repeat split.
  - intros f base ext Hf Hname Hext.
    rewrite downloadFile_name, Hf, Hname by assumption.
    now rewrite strip_extension_ext.
  - intros f Hf Hdot.
    rewrite downloadFile_name, Hf by assumption.
    now rewrite strip_extension_no_dot.
  - intros Hf. now rewrite downloadFile_name, Hf.
  - intros b Hb. unfold downloadRecording. rewrite Hb. simpl.
    now rewrite generateRecordingFilename_eq.
Qed.

Lemma C9_download_filenames_witness :
  utcFullYear sampleDate <= 9999 /\
  dl_filename
    (downloadFile (JStr "note") "SOAP-Note" sampleDate
       (with_file initialWorld (Some sampleAudio))) =
  "dr.lee.visit_SOAP-Note_2025-03-09.txt".
Proof.
  assert (Hy : utcFullYear sampleDate <= 9999)
    by (apply Nat.leb_le; reflexivity).
  split; [exact Hy |].
  destruct (C9_download_filenames
              (with_file initialWorld (Some sampleAudio))
              (JStr "note") "SOAP-Note" sampleDate Hy)
    as (_ & _ & Hext & _).
  apply (Hext sampleAudio "dr.lee.visit" "mp3"); reflexivity.
Defined.

(** ** File intake *)

Lemma accepted_type_iff (f : File) :
  isTextFile f || isAudioFile f = true <-> accepted_type f.
Proof.
  unfold isTextFile, isAudioFile, accepted_type.
  rewrite !orb_true_iff, String.eqb_eq, !endsWith_spec, startsWith_spec.
  tauto.
Qed.

Lemma handleFileSelect_accepted (f : File) (w : World) :
  isTextFile f || isAudioFile f = true ->
  file (ui (run (handleFileSelect f) w)) = Some f /\
  error (ui (run (handleFileSelect f) w)) = None.
Proof. intros H. unfold handleFileSelect. now rewrite H. Qed.

(** C4, as amended. A selected or dropped file whose name and MIME type
    both fall outside the accepted set makes [handleFileSelect] surface
    the unsupported-type message and clear the active input: the file
    state becomes [null], whatever it held before. *)
Theorem C4_rejected_file_clears_input (f : File) (w : World) :
  isTextFile f || isAudioFile f = false ->
  error (ui (run (handleFileSelect f) w)) = Some unsupportedTypeError /\
  file (ui (run (handleFileSelect f) w)) = None /\
  output (ui (run (handleFileSelect f) w)) = output (ui w) /\
  error (ui (run (handleDrop [f]) w)) = Some unsupportedTypeError /\
  file (ui (run (handleDrop [f]) w)) = None.
Proof.
  intros H. unfold handleDrop, handleFileSelect. now rewrite H.
Qed.

Lemma C4_rejected_file_clears_input_witness :
  isTextFile sampleSpreadsheet || isAudioFile sampleSpreadsheet = false /\
  file (ui (run (handleFileSelect sampleSpreadsheet)
                (with_file initialWorld (Some sampleAudio)))) = None.
Proof.
  split; [reflexivity |].
  apply (C4_rejected_file_clears_input sampleSpreadsheet
           (with_file initialWorld (Some sampleAudio))).
  reflexivity.
Defined.

(** C4 as stated fails: with a valid file already selected, choosing an
    unsupported one does not leave the file state at its prior value. *)
Lemma C4_counterexample :
  let prior := with_file initialWorld (Some sampleAudio) in
  ~ accepted_type sampleSpreadsheet /\
  file (ui prior) = Some sampleAudio /\
  file (ui (run (handleFileSelect sampleSpreadsheet) prior)) <> file (ui prior).
Proof.
  cbn zeta. split; [| split].
  - rewrite <- accepted_type_iff. vm_compute. discriminate.
  - reflexivity.
  - vm_compute. discriminate.
Qed.

(** ** Symbolic execution of handlers

    [hstep] unfolds the handlers, the monad and the record updates, and
    nothing of the finite-map library, so that a handler applied to a
    world reduces to the world it produces. *)

Ltac hstep :=
  cbv beta iota zeta delta
    [run ret bind throw try_catch finally get update when_some fst snd
     setFile setIsUploading setOutput setError setOutputSelection
     setIsRecording setIsPaused setRecordedBlob setRecordingTime setIsPlaying
     setShowRecorder setAudioLevel
     fresh getUserMedia stopTracks set_recorder_state recorder_state
     newMediaRecorder recorder_start recorder_pause recorder_resume
     recorder_stop setInterval clearInterval requestAnimationFrame
     cancelAnimationFrame newAudioContext closeAudioContext setTimeout
     updateAudioLevel startAudioLevelMonitoring stopAudioLevelMonitoring
     startRecording ondataavailable onstop tick pauseRecording
     resumeRecording stopRecording cancelRecording
     handleFileSelect handleDrop playRecording useRecording clearRecording
     generateAnotherNote unmount effectCleanups fold_right
     get_prop js_and handleUpload_begin handleUpload_settled handleUpload
     callStartRecording dispatch app
     ui refs env
     file isUploading output error outputSelection isRecording isPaused
     recordedBlob recordingTime isPlaying showRecorder audioLevel
     isCancellingRef mediaRecorderRef streamRef intervalRef audioContextRef
     analyserRef animationRef audioSrc audioPlaying fileInputValue
     next_id streams recorders intervals frames contexts tasks timeouts
     pendingGetUserMedia pendingFetches
     with_file with_isUploading with_output with_error with_outputSelection
     with_isRecording with_isPaused with_recordedBlob with_recordingTime
     with_isPlaying with_showRecorder with_audioLevel
     with_isCancellingRef with_mediaRecorderRef with_streamRef
     with_intervalRef with_audioContextRef with_analyserRef with_animationRef
     with_audioSrc with_audioPlaying with_fileInputValue
     with_next_id with_streams with_recorders with_intervals with_frames
     with_contexts with_tasks with_timeouts with_pendingGetUserMedia
     with_pendingFetches
     negb andb orb].

Tactic Notation "hstep" "in" hyp(H) :=
  cbv beta iota zeta delta
    [ui refs env
     file isUploading output error outputSelection isRecording isPaused
     recordedBlob recordingTime isPlaying showRecorder audioLevel
     isCancellingRef mediaRecorderRef streamRef intervalRef audioContextRef
     analyserRef animationRef audioSrc audioPlaying fileInputValue
     next_id streams recorders intervals frames contexts tasks timeouts
     pendingGetUserMedia pendingFetches] in H.

(** Name the components of a world. *)
Ltac open_world w :=
  destruct w as
    [[f_ upl_ out_ err_ sel_ rec_ pau_ blob_ time_ play_ show_ lvl_]
     [canc_ mr_ st_ iv_ ctx_ an_ anim_ src_ aplay_ fiv_]
     [nid_ strs_ recs_ ivs_ frs_ ctxs_ tasks_ tmo_ gum_ fet_]].

(** Reduce the projections in every hypothesis. *)
Ltac norm_hyps :=
  unfold recorder_state in *;
  repeat match goal with H : _ |- _ => progress hstep in H end.

(** ** Submission *)

Lemma handleUpload_settled_rejected (f : File) (r : Response) (w : World) :
  resp_ok r = false \/ isJsonContentType (resp_contentType r) = false ->
  run (handleUpload_settled f (Responded r)) w =
  with_isUploading (with_error w (Some uploadError)) false.
Proof.
  intros H. open_world w. hstep.
  destruct (resp_ok r); [| reflexivity].
  destruct H as [H | H]; [discriminate |]. now rewrite H.
Qed.

Lemma handleUpload_settled_network (f : File) (w : World) :
  run (handleUpload_settled f NetworkError) w =
  with_isUploading (with_error w (Some uploadError)) false.
Proof. open_world w. reflexivity. Qed.

Lemma handleUpload_settled_nullish (f : File) (r : Response) (v : JsValue)
    (w : World) :
  json_success r v -> nullish v = true ->
  run (handleUpload_settled f (Responded r)) w =
  with_isUploading (with_error w (Some uploadError)) false.
Proof.
  intros (Hok & Hct & Hjson) Hv. open_world w. hstep.
  rewrite Hok, Hct, Hjson. now destruct v.
Qed.

Lemma handleUpload_settled_rendered (f : File) (r : Response) (v : JsValue)
    (w : World) :
  json_success r v -> nullish v = false ->
  run (handleUpload_settled f (Responded r)) w =
  with_isUploading (with_output w (Some (rendered f v))) false.
Proof.
  intros (Hok & Hct & Hjson) Hv. open_world w. hstep.
  rewrite Hok, Hct, Hjson. unfold rendered, pair_present.
  destruct v as [| | b | n | s | items | fields]; try discriminate;
    try reflexivity.
  unfold prop.
  destruct (truthy (field "soap_note_text" fields)) eqn:E1;
    destruct (truthy (field "patient_summary_text" fields)) eqn:E2;
    destruct (truthy (field "soapNote" fields)) eqn:E3;
    destruct (truthy (field "patientSummary" fields)) eqn:E4;
    repeat (hstep; first [rewrite E1 | rewrite E2 | rewrite E3 | rewrite E4]);
    reflexivity.
Qed.

Lemma handleUpload_eq (w : World) (f : File) (res : FetchResult) :
  file (ui w) = Some f ->
  run (handleUpload res) w =
  run (handleUpload_settled f res)
      (with_error (with_isUploading w true) None).
Proof.
  intros Hf. open_world w. hstep in Hf. subst. reflexivity.
Qed.

Lemma handleUpload_no_file (w : World) (res : FetchResult) :
  file (ui w) = None -> run (handleUpload res) w = w.
Proof.
  intros Hf. open_world w. hstep in Hf. subst. reflexivity.
Qed.

Lemma jsonResponse_success (v : JsValue) : json_success (jsonResponse v) v.
Proof. repeat split. Qed.

Lemma includes_spec (s p : string) :
  Js.includes s p = true <-> has_infix s p.
Proof.
  unfold has_infix. split.
  - induction s as [| c s IH]; cbn [Js.includes].
    + rewrite orb_false_r. intros [post ->]%startsWith_spec. now exists "", post.
    + intros [[post Hs]%startsWith_spec | Htl]%orb_prop.
      * now exists "", post.
      * destruct (IH Htl) as (pre & post & ->). now exists (String c pre), post.
  - intros (pre & post & ->).
    induction pre as [| c pre IH]; cbn [Js.includes String.append].
    + assert (H : Js.startsWith (p +:+ post) p = true)
        by (apply startsWith_spec; now exists post).
      destruct (p +:+ post); cbn [Js.includes]; now rewrite H.
    + rewrite IH. apply orb_true_r.
Qed.

(** The test of the code is the one of the amended claim. *)
Lemma isJsonContentType_iff (contentType : option string) :
  isJsonContentType contentType = true <-> mentions_json contentType.
Proof.
  unfold isJsonContentType, mentions_json. destruct contentType as [ct |].
  - rewrite andb_true_iff, includes_spec, negb_true_iff. split.
    + intros [_ H]. now exists ct.
    + intros (ct' & [= <-] & H). split; [| exact H].
      destruct H as (pre & post & ->).
      destruct pre; [reflexivity | reflexivity].
  - split; [discriminate | intros (ct & [=] & _)].
Qed.

Lemma resp_ok_iff (r : Response) :
  resp_ok r = true <-> 200 <= resp_status r <= 299.
Proof.
  unfold resp_ok. now rewrite andb_true_iff, !Nat.leb_le.
Qed.

(** C5, as amended. A submission whose response has a status outside
    200-299, or a content-type header that is missing or in which the
    text [application/json] does not occur, sets the user-visible error
    message and leaves the rendered output as it was. This holds for the
    call as a whole and for its resumption on whatever world the response
    finds. *)
Theorem C5_failed_submission_keeps_output (w : World) (f : File)
    (r : Response) :
  file (ui w) = Some f ->
  ~ 200 <= resp_status r <= 299 \/ ~ mentions_json (resp_contentType r) ->
  error (ui (run (handleUpload (Responded r)) w)) = Some uploadError /\
  output (ui (run (handleUpload (Responded r)) w)) = output (ui w) /\
  isUploading (ui (run (handleUpload (Responded r)) w)) = false /\
  forall w2,
    error (ui (run (handleUpload_settled f (Responded r)) w2)) =
      Some uploadError /\
    output (ui (run (handleUpload_settled f (Responded r)) w2)) =
      output (ui w2).
Proof.
  intros Hf Hbad.
  assert (Hbad' : resp_ok r = false \/
                  isJsonContentType (resp_contentType r) = false).
  { destruct Hbad as [H | H]; [left | right]; apply not_true_is_false;
      intros E; apply H; [now apply resp_ok_iff
                         | now apply isJsonContentType_iff]. }
  rewrite (handleUpload_eq _ _ _ Hf).
  rewrite handleUpload_settled_rejected by assumption.
  repeat split.
  all: intros; rewrite handleUpload_settled_rejected by assumption;
    reflexivity.
Qed.

Lemma C5_failed_submission_keeps_output_witness :
  file (ui notedWorld) = Some sampleAudio /\
  (~ mentions_json (resp_contentType htmlResponse) /\
   error (ui (run (handleUpload (Responded htmlResponse)) notedWorld)) =
     Some uploadError /\
   output (ui (run (handleUpload (Responded htmlResponse)) notedWorld)) =
     Some sampleOutput) /\
  (~ 200 <= resp_status serverErrorResponse <= 299 /\
   error (ui (run (handleUpload (Responded serverErrorResponse)) notedWorld)) =
     Some uploadError /\
   output (ui (run (handleUpload (Responded serverErrorResponse)) notedWorld)) =
     Some sampleOutput).
Proof.
  assert (Hf : file (ui notedWorld) = Some sampleAudio) by reflexivity.
  assert (Hct : ~ mentions_json (resp_contentType htmlResponse))
    by (rewrite <- isJsonContentType_iff; vm_compute; discriminate).
  assert (Hst : ~ 200 <= resp_status serverErrorResponse <= 299)
    by (cbn [resp_status serverErrorResponse]; lia).
  split; [exact Hf |].
  destruct (C5_failed_submission_keeps_output notedWorld sampleAudio
              htmlResponse Hf (or_intror Hct)) as (He & Ho & _).
  destruct (C5_failed_submission_keeps_output notedWorld sampleAudio
              serverErrorResponse Hf (or_introl Hst)) as (He' & Ho' & _).
  split; [exact (conj Hct (conj He Ho)) | exact (conj Hst (conj He' Ho'))].
Defined.

(** C5 as stated fails. A response with status 200 whose media type is
    [application/jsonl], or [text/plain] with [application/json] in a
    parameter, is not JSON, yet it passes the check of the code: its body
    is parsed, the output rendered before is replaced and no error is
    shown. *)
Lemma C5_counterexample :
  file (ui notedWorld) = Some sampleAudio /\
  output (ui notedWorld) = Some sampleOutput /\
  (resp_status jsonLinesResponse = 200 /\
   resp_contentType jsonLinesResponse = Some "application/jsonl" /\
   mediaType "application/jsonl" <> "application/json" /\
   error (ui (run (handleUpload (Responded jsonLinesResponse)) notedWorld)) =
     None /\
   output (ui (run (handleUpload (Responded jsonLinesResponse)) notedWorld)) =
     Some (mockResponse sampleAudio) /\
   mockResponse sampleAudio <> sampleOutput) /\
  (resp_status plainTextResponse = 200 /\
   mediaType "text/plain; note=application/json" = "text/plain" /\
   error (ui (run (handleUpload (Responded plainTextResponse)) notedWorld)) =
     None /\
   output (ui (run (handleUpload (Responded plainTextResponse)) notedWorld)) =
     Some (mockResponse sampleAudio)).
Proof.
  repeat split; try (vm_compute; reflexivity); vm_compute; discriminate.
Qed.

(** The fallback branch: a parsed body other than [null] in which neither
    pair of fields is present (truthy) renders the canned pair, and no
    error is set. *)
Lemma handleUpload_placeholder (w : World) (f : File) (r : Response)
    (v : JsValue) :
  file (ui w) = Some f ->
  json_success r v -> nullish v = false ->
  pair_present v "soap_note_text" "patient_summary_text" = false ->
  pair_present v "soapNote" "patientSummary" = false ->
  output (ui (run (handleUpload (Responded r)) w)) = Some (mockResponse f) /\
  error (ui (run (handleUpload (Responded r)) w)) = None.
Proof.
  intros Hf Hr Hv Hnew Hold.
  rewrite (handleUpload_eq _ _ _ Hf).
  rewrite (handleUpload_settled_rendered _ _ _ _ Hr Hv).
  unfold rendered. rewrite Hnew, Hold. split; reflexivity.
Qed.

(** C6, at the input where the code departs from it. A successful JSON
    response whose body is [null] carries neither pair of fields, yet
    reading [result.soap_note_text] throws: the catch block surfaces the
    submission error and no placeholder is rendered. *)
Theorem C6_null_body_surfaces_error :
  let w := with_file initialWorld (Some sampleAudio) in
  let w' := run (handleUpload (Responded (jsonResponse JNull))) w in
  json_success (jsonResponse JNull) JNull /\
  error (ui w') = Some uploadError /\
  output (ui w') = None /\
  output (ui w') <> Some (mockResponse sampleAudio).
Proof.
  cbn zeta. split; [apply jsonResponse_success |].
  rewrite (handleUpload_eq _ sampleAudio) by reflexivity.
  rewrite (handleUpload_settled_nullish _ _ JNull)
    by (reflexivity || apply jsonResponse_success).
  repeat split. discriminate.
Qed.

Lemma field_remove_eq (k : string) (fields : list (string * JsValue)) :
  field k (remove_field k fields) = JUndefined.
Proof.
  induction fields as [|[k' v] rest IH]; simpl; [reflexivity |].
  destruct (String.eqb k' k) eqn:E; [exact IH |].
  simpl. now rewrite E.
Qed.

Lemma field_remove_ne (k k2 : string) (fields : list (string * JsValue)) :
  k <> k2 -> field k2 (remove_field k fields) = field k2 fields.
Proof.
  intros Hne. induction fields as [|[k' v] rest IH]; simpl; [reflexivity |].
  destruct (String.eqb k' k) eqn:E.
  - apply String.eqb_eq in E. subst k'.
    apply String.eqb_neq in Hne. now rewrite Hne.
  - simpl. now rewrite IH.
Qed.

(** Removing a field that holds the empty string changes neither the
    truthiness nor the rendered value read through any name. *)
Lemma truthy_field_remove (k k2 : string) (fields : list (string * JsValue)) :
  field k fields = JStr "" ->
  truthy (field k2 (remove_field k fields)) = truthy (field k2 fields) /\
  (truthy (field k2 fields) = true ->
   field k2 (remove_field k fields) = field k2 fields).
Proof.
  intros Hk. destruct (String.eqb_spec k k2) as [<- | Hne].
  - rewrite field_remove_eq, Hk. split; [reflexivity | discriminate].
  - rewrite field_remove_ne by assumption. split; reflexivity.
Qed.

Lemma rendered_remove_empty (f : File) (k : string)
    (fields : list (string * JsValue)) :
  field k fields = JStr "" ->
  rendered f (JObj (remove_field k fields)) = rendered f (JObj fields).
Proof.
  intros Hk. unfold rendered, pair_present, prop.
  destruct (truthy_field_remove k "soap_note_text" fields Hk) as [-> V1].
  destruct (truthy_field_remove k "patient_summary_text" fields Hk) as [-> V2].
  destruct (truthy_field_remove k "soapNote" fields Hk) as [-> V3].
  destruct (truthy_field_remove k "patientSummary" fields Hk) as [-> V4].
  destruct (truthy (field "soap_note_text" fields));
    destruct (truthy (field "patient_summary_text" fields));
    destruct (truthy (field "soapNote" fields));
    destruct (truthy (field "patientSummary" fields)); simpl;
    rewrite ?V1, ?V2, ?V3, ?V4 by reflexivity; reflexivity.
Qed.

(** C10, as amended. The field tests are truthiness tests, so a field
    that is present but holds the empty string is treated as absent: the
    response renders exactly what it would render without that field.
    The pair the empty field belongs to is never rendered; the
    placeholder pair is rendered instead, unless the other pair is
    present with both fields truthy, in which case that other pair is
    rendered. No error is surfaced. *)
Theorem C10_empty_text_counts_as_absent (w : World) (f : File)
    (r : Response) (fields : list (string * JsValue)) :
  file (ui w) = Some f ->
  json_success r (JObj fields) ->
  let w' := run (handleUpload (Responded r)) w in
  error (ui w') = None /\
  (field "soap_note_text" fields = JStr "" \/
   field "patient_summary_text" fields = JStr "" ->
   output (ui w') =
   Some (if pair_present (JObj fields) "soapNote" "patientSummary"
         then legacyPair (JObj fields) else mockResponse f)) /\
  (field "soapNote" fields = JStr "" \/
   field "patientSummary" fields = JStr "" ->
   output (ui w') =
   Some (if pair_present (JObj fields) "soap_note_text" "patient_summary_text"
         then newPair (JObj fields) else mockResponse f)) /\
  (forall k r',
      field k fields = JStr "" ->
      json_success r' (JObj (remove_field k fields)) ->
      run (handleUpload (Responded r')) w = w').
Proof.
  intros Hf Hr. cbn zeta.
  rewrite (handleUpload_eq _ _ _ Hf).
  rewrite (handleUpload_settled_rendered _ _ _ _ Hr) by reflexivity.
  split; [reflexivity |].
  split; [| split].
  - intros Hempty. cbn [output ui with_isUploading with_output].
    f_equal. unfold rendered, pair_present at 1. cbn [prop].
    destruct Hempty as [-> | ->]; cbn [truthy String.eqb negb andb];
      rewrite ?andb_false_r; reflexivity.
  - intros Hempty. cbn [output ui with_isUploading with_output].
    f_equal. unfold rendered.
    destruct (pair_present (JObj fields) "soap_note_text"
                "patient_summary_text"); [reflexivity |].
    unfold pair_present. cbn [prop].
    destruct Hempty as [-> | ->]; cbn [truthy String.eqb negb andb];
      rewrite ?andb_false_r; reflexivity.
  - intros k r' Hk Hr'.
    rewrite (handleUpload_eq _ _ _ Hf).
    rewrite (handleUpload_settled_rendered _ _ _ _ Hr') by reflexivity.
    now rewrite rendered_remove_empty.
Qed.

Lemma C10_empty_text_counts_as_absent_witness :
  let w := with_file initialWorld (Some sampleAudio) in
  file (ui w) = Some sampleAudio /\
  json_success (jsonResponse emptyNoteBody) emptyNoteBody /\
  output (ui (run (handleUpload (Responded (jsonResponse emptyNoteBody))) w)) =
    Some (mockResponse sampleAudio).
Proof.
  cbn zeta.
  assert (Hf : file (ui (with_file initialWorld (Some sampleAudio))) =
               Some sampleAudio) by reflexivity.
  split; [exact Hf |].
  split; [apply jsonResponse_success |].
  destruct (C10_empty_text_counts_as_absent
              (with_file initialWorld (Some sampleAudio)) sampleAudio
              (jsonResponse emptyNoteBody)
              [("soap_note_text", JStr "");
               ("patient_summary_text", JStr "All is well.")]
              Hf (jsonResponse_success emptyNoteBody))
    as (_ & Hnew & _).
  apply Hnew. left. reflexivity.
Defined.

(** C10 as stated fails on a response that carries both conventions: the
    new-format note is the empty string, and what is rendered is the
    legacy pair, not the placeholder pair. *)
Lemma C10_counterexample :
  let w := with_file initialWorld (Some sampleAudio) in
  let w' := run (handleUpload (Responded (jsonResponse mixedBody))) w in
  prop mixedBody "soap_note_text" = JStr "" /\
  output (ui w') =
    Some {| soapNote := JStr "Note, old format";
            patientSummary := JStr "Summary, old format" |} /\
  output (ui w') <> Some (mockResponse sampleAudio).
Proof.
  cbn zeta. split; [reflexivity |].
  rewrite (handleUpload_eq _ sampleAudio) by reflexivity.
  rewrite (handleUpload_settled_rendered _ _ mixedBody)
    by (reflexivity || apply jsonResponse_success).
  split; [reflexivity |]. vm_compute. discriminate.
Qed.

(** ** The recording session *)

Ltac open_session H :=
  match type of H with
  | Recording _ _ _ _ _ _ =>
      let S := fresh "S" in
      destruct H as [S ? ? ? ? ? ? ?]; destruct S as [? ? ? ? ? ?]
  | Paused _ _ _ =>
      let S := fresh "S" in
      destruct H as [S ? ? ? ? ? ?]; destruct S as [? ? ? ? ? ?]
  | Stopping _ _ _ _ => destruct H as [? ? ?]
  end.

(** Find the recorder a hypothesis speaks of and use what is known of it. *)
Ltac use_recorder :=
  match goal with
  | H : mr_stream <$> ?m !! ?r = Some _ |- _ =>
      let Hm := fresh "Hm" in
      let rec_ := fresh "m" in
      destruct (m !! r) as [rec_|] eqn:Hm; [| discriminate H];
      cbn [fmap option_fmap option_map] in H;
      apply (inj Some) in H
  end.

Lemma Quiet_disables (w : World) :
  Quiet w ->
  (forall i, enabled (IntervalFires i) w = false) /\
  (forall a lvl, enabled (AnimationFrame a lvl) w = false).
Proof.
  intros [Hi Hf]. unfold enabled. rewrite Hi, Hf.
  split; intros; apply bool_decide_eq_false; set_solver.
Qed.

(** A handler is run head first: the first computation of a sequence is
    evaluated on the current world, and only then the rest. *)
Lemma run_bind_normal {A} (m : Handler A) (k : A -> Handler unit)
    (w w' : World) (a : A) :
  m w = (Normal a, w') -> run (bind m k) w = run (k a) w'.
Proof. intros H. unfold run, bind. now rewrite H. Qed.

Ltac rewrite_recorder :=
  match goal with
  | Hm : _ !! _ = Some ?m |- _ =>
      match type of m with MediaRecorder => rewrite Hm end
  end.

Ltac resolve :=
  repeat first
    [ rewrite lookup_alter_eq
    | rewrite lookup_insert_eq
    | rewrite_recorder
    | match goal with H : mr_state _ = _ |- _ => rewrite H end
    | progress cbn [fmap option_fmap option_map set_state push_chunk
                    mr_state mr_stream mr_chunks] ].

Ltac eval_head := hstep; repeat (progress resolve; hstep); reflexivity.

Ltac hrun :=
  repeat first
    [ erewrite run_bind_normal by eval_head
    | progress cbv beta iota delta [andb negb orb when_some] ].

Ltac stream_calls :=
  cbn [push_chunk set_state mr_stream]; subst;
  rewrite ?lookup_alter_eq;
  match goal with
  | H : _ !! _ = Some ?k |- _ =>
      match type of k with nat => rewrite H end
  end;
  reflexivity.

Ltac captured :=
  rewrite ?lookup_alter_eq, ?lookup_insert_eq; try rewrite_recorder;
  cbn [fmap option_fmap option_map set_state push_chunk mr_stream mr_state];
  first [reflexivity | now f_equal].

Ltac state_fact :=
  lazymatch goal with
  | |- Session _ _ _ =>
      split; hstep;
      first [reflexivity | assumption | captured | stream_calls]
  | |- recorder_state _ _ = _ => unfold recorder_state; hstep; captured
  | |- @eq (gset _) _ _ => set_solver
  | |- _ => first [reflexivity | assumption | captured]
  end.

Ltac fact :=
  lazymatch goal with
  | |- Quiet _ => split; hstep; set_solver
  | |- Stopping _ _ _ _ =>
      split; hstep; [reflexivity | captured | first [assumption | stream_calls]]
  | |- _ !! _ = _ => first [assumption | stream_calls]
  | |- _ -> _ =>
      first [ discriminate
            | intros _; first [split; reflexivity | eexists; reflexivity] ]
  | |- _ => reflexivity
  end.

Ltac session_open w H :=
  open_session H; open_world w; norm_hyps; subst; use_recorder.

Lemma stopRecording_InSession (w : World) (r s : positive) :
  InSession w r s -> AfterStop w (run stopRecording w) r s.
Proof.
  intros [(i & a & c & H) | H]; session_open w H; unfold stopRecording;
    hrun; hstep.
  all: repeat match goal with
         | |- context [match ?x with Some _ => _ | None => _ end] =>
             is_var x; destruct x; hstep
         end.
  all: split; hstep; fact.
Qed.

Lemma cancelRecording_InSession (w : World) (r s : positive) :
  InSession w r s -> AfterCancel (run cancelRecording w) r s.
Proof.
  intros [(i & a & c & H) | H]; session_open w H; unfold cancelRecording;
    hrun; hstep.
  all: repeat match goal with
         | |- context [match ?x with Some _ => _ | None => _ end] =>
             is_var x; destruct x; hstep
         end.
  all: split; hstep; fact.
Qed.

Lemma recorderTask_Stopping (w : World) (r s : positive) (k : nat)
    (data : Chunk) :
  Stopping w r s k ->
  AfterStopEvent w (run (dispatch (RecorderTask data)) w) s k.
Proof.
  intros H. open_session H. open_world w. norm_hyps. subst. use_recorder.
  unfold dispatch. hrun. unfold ondataavailable, onstop.
  destruct (0 <? length data)%nat; hrun; destruct canc_; hstep.
  all: split; hstep; fact.
Qed.

(** [pauseRecording] takes [Recording] to [Paused] and leaves the
    elapsed time alone. *)
Lemma pauseRecording_Recording (w : World) (r s i a c : positive) :
  Recording w r s i a c ->
  Paused (run pauseRecording w) r s /\
  recordingTime (ui (run pauseRecording w)) = recordingTime (ui w).
Proof.
  intros H. session_open w H. unfold pauseRecording. hrun. hstep.
  split; [| reflexivity].
  split; hstep; state_fact.
Qed.

(** [resumeRecording] takes [Paused] back to [Recording], with a new
    interval and a new metering loop, and leaves the elapsed time alone. *)
Lemma resumeRecording_Paused (w : World) (r s : positive) (lvl : nat) :
  Paused w r s ->
  (exists i a c, Recording (run (resumeRecording lvl) w) r s i a c) /\
  recordingTime (ui (run (resumeRecording lvl) w)) = recordingTime (ui w).
Proof.
  intros H. session_open w H. unfold resumeRecording. hrun. hstep.
  split; [| reflexivity].
  exists nid_, (Pos.succ (Pos.succ nid_)), (Pos.succ nid_).
  split; hstep; state_fact.
Qed.

Lemma tick_intervals (w : World) :
  intervals (env (run tick w)) = intervals (env w) /\
  recordingTime (ui (run tick w)) = recordingTime (ui w) + 1.
Proof. open_world w. split; reflexivity. Qed.

Lemma second_passes_single (i : positive) (w : World) :
  intervals (env w) = {[i]} -> second_passes w = run tick w.
Proof.
  intros Hi. unfold second_passes. now rewrite Hi, size_singleton.
Qed.

(** With exactly one live interval, the elapsed time advances by one per
    second. *)
Lemma seconds_single_interval (i : positive) (n : nat) (w : World) :
  intervals (env w) = {[i]} ->
  intervals (env (Nat.iter n second_passes w)) = {[i]} /\
  recordingTime (ui (Nat.iter n second_passes w)) = recordingTime (ui w) + n.
Proof.
  intros Hi. induction n as [|n [IHi IHt]].
  - split; [assumption | simpl; lia].
  - rewrite Nat.iter_succ, (second_passes_single i) by assumption.
    destruct (tick_intervals (Nat.iter n second_passes w)) as [Ei Et].
    rewrite Ei, Et. split; [assumption | lia].
Qed.

(** With no live interval, time passing changes nothing. *)
Lemma seconds_no_interval (n : nat) (w : World) :
  intervals (env w) = ∅ -> Nat.iter n second_passes w = w.
Proof.
  intros Hi. induction n as [|n IH]; [reflexivity |].
  rewrite Nat.iter_succ, IH. unfold second_passes.
  now rewrite Hi, size_empty.
Qed.

(** A granted [startRecording] on a world that is not paused, has no live
    periodic callback and no queued recorder event opens a session in
    state [Recording], with the elapsed time at zero. *)
Lemma startRecording_Recording (w : World) (lvl : nat) :
  Quiet w -> tasks (env w) = [] -> isPaused (ui w) = false ->
  exists r s i a c,
    Recording (run (startRecording true lvl) w) r s i a c /\
    recordingTime (ui (run (startRecording true lvl) w)) = 0.
Proof.
  intros [Hi Hf] Ht Hp. open_world w. norm_hyps. subst.
  exists (Pos.succ nid_), nid_,
    (Pos.succ (Pos.succ (Pos.succ (Pos.succ nid_)))),
    (Pos.succ (Pos.succ (Pos.succ nid_))), (Pos.succ (Pos.succ nid_)).
  hstep. rewrite lookup_insert_eq. cbn [mr_state]. hstep.
  split; [| reflexivity].
  split; hstep; state_fact.
Qed.

Lemma unmount_id (w : World) : run unmount w = w.
Proof. reflexivity. Qed.

(** While a recording runs, a tick of the interval and a metering
    refresh keep the session in state [Recording]. *)
Lemma IntervalFires_Recording (w : World) (r s i a c j : positive) :
  Recording w r s i a c ->
  Recording (run (dispatch (IntervalFires j)) w) r s i a c.
Proof.
  intros H. session_open w H. hstep.
  destruct (bool_decide (j ∈ {[i]})); hstep; split; hstep; state_fact.
Qed.

Lemma AnimationFrame_Recording (w : World) (r s i a c : positive)
    (lvl : nat) :
  Recording w r s i a c ->
  exists a',
    Recording (run (dispatch (AnimationFrame a lvl)) w) r s i a' c.
Proof.
  intros H. session_open w H. exists nid_. hstep.
  rewrite bool_decide_eq_true_2 by set_solver. hstep.
  split; hstep; state_fact.
Qed.

(** ** Sample sessions *)

Lemma recordingWorld_Recording : Recording recordingWorld 2 1 5 4 3.
Proof. split; [split | ..]; vm_compute; reflexivity. Qed.

Lemma pausedWorld_Paused : Paused pausedWorld 2 1.
Proof. split; [split | ..]; vm_compute; reflexivity. Qed.

(** ** Pause and resume *)

Lemma pauseRecording_noop (w : World) :
  ~ (isRecording (ui w) = true /\ isPaused (ui w) = false) ->
  run pauseRecording w = w.
Proof.
  intros H. open_world w. norm_hyps.
  destruct mr_, rec_, pau_; try reflexivity.
  exfalso. apply H. now split.
Qed.

Lemma resumeRecording_noop (w : World) (lvl : nat) :
  ~ (isRecording (ui w) = true /\ isPaused (ui w) = true) ->
  run (resumeRecording lvl) w = w.
Proof.
  intros H. open_world w. norm_hyps.
  destruct mr_, rec_, pau_; try reflexivity.
  exfalso. apply H. now split.
Qed.

(** X19. For a session in state [Recording] that is alone: the refs hold
    its recorder, stream, interval and animation frame, these two are the
    only periodic callbacks alive and no recorder event is queued.
    [pauseRecording] changes nothing unless the flags say [Recording] and
    not paused, [resumeRecording] nothing unless they say paused. From
    elapsed time [t], a pause leads to [Paused] with the counter at [t],
    where it stays however long the pause lasts; the resume leads back to
    [Recording] with the counter still at [t], one live interval and a
    running metering loop, and from there the counter reads [t + n] after
    [n] seconds. *)
Theorem pause_resume_continuity (w : World) (r s i a c : positive)
    (lvl n : nat) :
  Recording w r s i a c ->
  let p := run pauseRecording w in
  let q := run (resumeRecording lvl) p in
  (forall w0,
      ~ (isRecording (ui w0) = true /\ isPaused (ui w0) = false) ->
      run pauseRecording w0 = w0) /\
  (forall w0 l,
      ~ (isRecording (ui w0) = true /\ isPaused (ui w0) = true) ->
      run (resumeRecording l) w0 = w0) /\
  run (resumeRecording lvl) w = w /\
  run pauseRecording p = p /\
  Paused p r s /\
  recordingTime (ui p) = recordingTime (ui w) /\
  Nat.iter n second_passes p = p /\
  (exists i' a' c',
      Recording q r s i' a' c' /\
      intervals (env q) = {[i']} /\
      animationRef (refs q) = Some a' /\ a' ∈ frames (env q)) /\
  recordingTime (ui q) = recordingTime (ui w) /\
  recordingTime (ui (Nat.iter n second_passes q)) = recordingTime (ui w) + n.
Proof.
  intros H. cbn zeta.
  destruct (pauseRecording_Recording w r s i a c H) as [Hp Tp].
  destruct (resumeRecording_Paused _ r s lvl Hp) as [(i' & a' & c' & Hq) Tq].
  split; [exact pauseRecording_noop |].
  split; [exact resumeRecording_noop |].
  split.
  { apply resumeRecording_noop. destruct H as [_ Hnp _ _ _ _ _ _].
    intros [_ Hx]. congruence. }
  split.
  { apply pauseRecording_noop. destruct Hp as [_ Hx _ _ _ _ _].
    intros [_ Hy]. congruence. }
  split; [exact Hp |]. split; [exact Tp |].
  split.
  { apply seconds_no_interval. now destruct Hp. }
  split.
  { exists i', a', c'. split; [exact Hq |].
    destruct Hq as [_ _ _ _ Hi Ha Hf _]. split; [exact Hi |].
    split; [exact Ha |]. rewrite Hf. set_solver. }
  split; [congruence |].
  destruct Hq as [_ _ _ _ Hi _ _ _].
  destruct (seconds_single_interval i' n _ Hi) as [_ Ht].
  rewrite Ht. congruence.
Qed.

Lemma pause_resume_continuity_witness :
  Recording recordingWorld 2 1 5 4 3 /\
  recordingTime
    (ui (Nat.iter 3 second_passes
           (run (resumeRecording 0) (run pauseRecording recordingWorld)))) =
  recordingTime (ui recordingWorld) + 3.
Proof.
  assert (H : Recording recordingWorld 2 1 5 4 3)
    by (split; [split | ..]; vm_compute; reflexivity).
  split; [exact H |].
  destruct (pause_resume_continuity recordingWorld 2 1 5 4 3 0 3 H)
    as (_ & _ & _ & _ & _ & _ & _ & _ & _ & Ht).
  exact Ht.
Defined.

(** ** Clearing the error message *)

Lemma useRecording_clears_error (w : World) (b : Blob) (now : Date) :
  recordedBlob (ui w) = Some b ->
  error (ui (run (useRecording now) w)) = None.
Proof. intros H. open_world w. norm_hyps. subst. reflexivity. Qed.

Lemma handleUpload_success_clears_error (w : World) (f : File)
    (r : Response) (v : JsValue) :
  file (ui w) = Some f -> json_success r v -> nullish v = false ->
  error (ui (run (handleUpload (Responded r)) w)) = None.
Proof.
  intros Hf Hr Hv. rewrite (handleUpload_eq _ _ _ Hf).
  now rewrite (handleUpload_settled_rendered _ _ _ _ Hr Hv).
Qed.

Lemma startRecording_denied (w : World) (lvl : nat) :
  run (startRecording false lvl) w = with_error w (Some microphoneError).
Proof. open_world w. reflexivity. Qed.

(** C8, where the code departs from it. A successful recording start
    does not touch the error state: whatever message was shown before
    [startRecording] is still shown once the recording runs. In
    particular, after a refused microphone request the next, granted
    request starts the recording and leaves the microphone message in
    place. *)
Theorem C8_start_keeps_error (w : World) (lvl : nat) :
  error (ui (run (startRecording true lvl) w)) = error (ui w) /\
  isRecording (ui (run (startRecording true lvl) w)) = true /\
  error (ui deniedWorld) = Some microphoneError /\
  enabled ClickStartInPanel deniedWorld = true /\
  (exists w',
      play [ClickStartInPanel; GetUserMediaSettles true lvl] deniedWorld =
        Some w' /\
      isRecording (ui w') = true /\
      error (ui w') = Some microphoneError).
Proof.
  split; [| split].
  - open_world w. hstep. rewrite lookup_insert_eq. cbn [mr_state]. hstep.
    reflexivity.
  - open_world w. hstep. rewrite lookup_insert_eq. cbn [mr_state]. hstep.
    reflexivity.
  - split; [vm_compute; reflexivity |]. split; [vm_compute; reflexivity |].
    eexists. split; [vm_compute; reflexivity |].
    split; vm_compute; reflexivity.
Qed.

(** * Further properties of the code *)

(** ** The elapsed-time display *)











Lemma padStart_fixed_below (k : nat) :
  k < 100 -> padStart 2 "0" (Js.of_nat k) = Js.fixed 2 k.
Proof.
  intros Hk.
  assert (H : forallb (fun k => String.eqb (padStart 2 "0" (Js.of_nat k))
                                           (Js.fixed 2 k)) (seq 0 100) = true)
    by (vm_compute; reflexivity).
  rewrite forallb_forall in H. apply String.eqb_eq, H, in_seq. lia.
Qed.

(** X2. Below one hundred minutes the display is exactly [MM:SS], both
    fields zero padded to two digits; the seconds field has two digits
    whatever the count. *)
Theorem formatTime_two_digits (seconds : nat) :
  seconds < 100 * 60 ->
  formatTime seconds =
    Js.fixed 2 (seconds / 60) +:+ ":" +:+ Js.fixed 2 (seconds mod 60) /\
  String.length (formatTime seconds) = 5 /\
  forall n, exists mins,
    formatTime n = mins +:+ ":" +:+ Js.fixed 2 (n mod 60).
Proof.
  intros H.
  assert (Hm : seconds / 60 < 100) by (apply Nat.Div0.div_lt_upper_bound; lia).
  assert (Hs : forall n, n mod 60 < 100).
  { intros n. pose proof (Nat.mod_upper_bound n 60). lia. }
  assert (E : formatTime seconds =
              Js.fixed 2 (seconds / 60) +:+ ":" +:+ Js.fixed 2 (seconds mod 60)).
  { unfold formatTime. cbn zeta.
    now rewrite !padStart_fixed_below by auto. }
  split; [exact E |]. split.
  - rewrite E. unfold Js.fixed. reflexivity.
  - intros n. eexists. unfold formatTime. cbn zeta.
    now rewrite (padStart_fixed_below (n mod 60)) by auto.
Qed.

Lemma formatTime_two_digits_witness :
  125 < 100 * 60 /\ formatTime 125 = "02:05".
Proof.
  assert (H : 125 < 100 * 60) by (apply Nat.ltb_lt; reflexivity).
  split; [exact H |].
  destruct (formatTime_two_digits 125 H) as (E & _).
  rewrite E. reflexivity.
Defined.

(** ** Running a handler on an arbitrary world

    The same head-first execution, for worlds of which nothing is known:
    where the head of a sequence branches on something undetermined, the
    cases are split; an operation on a recorder is replaced by what it
    can do to the React state and the refs, which is nothing. *)
Declare Reduction hred :=
  cbv beta iota zeta delta
    [run ret bind throw try_catch finally get update when_some fst snd
     setFile setIsUploading setOutput setError setOutputSelection
     setIsRecording setIsPaused setRecordedBlob setRecordingTime setIsPlaying
     setShowRecorder setAudioLevel
     fresh getUserMedia stopTracks set_recorder_state recorder_state
     newMediaRecorder recorder_start recorder_pause recorder_resume
     recorder_stop setInterval clearInterval requestAnimationFrame
     cancelAnimationFrame newAudioContext closeAudioContext setTimeout
     updateAudioLevel startAudioLevelMonitoring stopAudioLevelMonitoring
     startRecording ondataavailable onstop tick pauseRecording
     resumeRecording stopRecording cancelRecording
     handleFileSelect handleDrop playRecording useRecording clearRecording
     generateAnotherNote unmount effectCleanups fold_right
     get_prop js_and handleUpload_begin handleUpload_settled handleUpload
     callStartRecording dispatch app
     ui refs env
     file isUploading output error outputSelection isRecording isPaused
     recordedBlob recordingTime isPlaying showRecorder audioLevel
     isCancellingRef mediaRecorderRef streamRef intervalRef audioContextRef
     analyserRef animationRef audioSrc audioPlaying fileInputValue
     next_id streams recorders intervals frames contexts tasks timeouts
     pendingGetUserMedia pendingFetches
     with_file with_isUploading with_output with_error with_outputSelection
     with_isRecording with_isPaused with_recordedBlob with_recordingTime
     with_isPlaying with_showRecorder with_audioLevel
     with_isCancellingRef with_mediaRecorderRef with_streamRef
     with_intervalRef with_audioContextRef with_analyserRef with_animationRef
     with_audioSrc with_audioPlaying with_fileInputValue
     with_next_id with_streams with_recorders with_intervals with_frames
     with_contexts with_tasks with_timeouts with_pendingGetUserMedia
     with_pendingFetches
     negb andb orb].

Lemma run_bind_abrupt {A} (m : Handler A) (k : A -> Handler unit)
    (w w' : World) (e : string) :
  m w = (Abrupt e, w') -> run (bind m k) w = w'.
Proof. intros H. unfold run, bind. now rewrite H. Qed.

Ltac recorder_cases :=
  intros w; open_world w; hstep;
  match goal with
  | |- context [?recs !! ?r] =>
      destruct (recs !! r) as [[? [] ?]|]; cbn [mr_state]
  end;
  do 3 eexists; reflexivity.

Lemma recorder_start_browser_only (r : positive) :
  browser_only (recorder_start r).
Proof. recorder_cases. Qed.

Lemma recorder_pause_browser_only (r : positive) :
  browser_only (recorder_pause r).
Proof. recorder_cases. Qed.

Lemma recorder_resume_browser_only (r : positive) :
  browser_only (recorder_resume r).
Proof. recorder_cases. Qed.

Lemma recorder_stop_browser_only (r : positive) :
  browser_only (recorder_stop r).
Proof. recorder_cases. Qed.

Ltac forget_browser H :=
  let c := fresh "c" in
  let recs := fresh "recs" in
  let tks := fresh "tks" in
  let E := fresh "E" in
  destruct H as (c & recs & tks & E);
  cbv beta iota delta
    [with_tasks with_recorders ui refs env next_id streams recorders
     intervals frames contexts tasks timeouts pendingGetUserMedia
     pendingFetches] in E;
  destruct c;
  [ rewrite (run_bind_normal _ _ _ _ _ E)
  | rewrite (run_bind_abrupt _ _ _ _ _ E) ];
  clear E.

Ltac recorder_head :=
  match goal with
  | |- context [run (bind (recorder_start ?r) _) ?w] =>
      forget_browser (recorder_start_browser_only r w)
  | |- context [run (bind (recorder_pause ?r) _) ?w] =>
      forget_browser (recorder_pause_browser_only r w)
  | |- context [run (bind (recorder_resume ?r) _) ?w] =>
      forget_browser (recorder_resume_browser_only r w)
  | |- context [run (bind (recorder_stop ?r) _) ?w] =>
      forget_browser (recorder_stop_browser_only r w)
  end.

Ltac split_on t :=
  match t with
  | context [match ?x with _ => _ end] =>
      first [ split_on x
            | is_var x; destruct x
            | lazymatch goal with
              | E : x = _ |- _ => fail
              | _ => destruct x eqn:?
              end ]
  end.

Ltac use_eqs :=
  repeat match goal with
         | E : ?x = _ |- context [?x] =>
             lazymatch x with
             | context [match _ with _ => _ end] => rewrite E
             | _ !! _ => rewrite E
             | bool_decide _ => rewrite E
             | Nat.ltb _ _ => rewrite E
             | _ => fail
             end
         end.

Ltac eval_any :=
  hstep; repeat (progress (use_eqs; resolve); hstep); reflexivity.

Ltac split_head :=
  match goal with
  | |- context [run (bind ?m _) ?w] =>
      let t := eval hred in (m w) in
      split_on t
  end.

Ltac split_run :=
  match goal with
  | |- context [run (match ?x with _ => _ end) _] =>
      first [ split_on x
            | is_var x; destruct x
            | destruct x eqn:? ]
  end.

Ltac hexec :=
  repeat first
    [ recorder_head
    | erewrite run_bind_normal by eval_any
    | erewrite run_bind_abrupt by eval_any
    | progress cbv beta iota delta [andb negb orb when_some]
    | split_run
    | split_head
    | progress unfold
        updateAudioLevel, startAudioLevelMonitoring,
        stopAudioLevelMonitoring, ondataavailable, onstop,
        pauseRecording, resumeRecording, stopRecording, cancelRecording,
        handleFileSelect, handleDrop, playRecording, useRecording,
        clearRecording, generateAnotherNote, callStartRecording ].

(** ** Submission, whatever the response *)

Lemma handleUpload_settled_unparsable (f : File) (r : Response) (w : World) :
  resp_ok r = true -> isJsonContentType (resp_contentType r) = true ->
  resp_json r = None ->
  run (handleUpload_settled f (Responded r)) w =
  with_isUploading (with_error w (Some uploadError)) false.
Proof.
  intros Hok Hct Hjson. open_world w. hstep.
  now rewrite Hok, Hct, Hjson.
Qed.

(** A settled request ends in one of two worlds. *)
Lemma handleUpload_settled_cases (f : File) (res : FetchResult) (w : World) :
  run (handleUpload_settled f res) w =
    with_isUploading (with_error w (Some uploadError)) false \/
  exists v,
    run (handleUpload_settled f res) w =
    with_isUploading (with_output w (Some (rendered f v))) false.
Proof.
  destruct res as [| r]; [left; apply handleUpload_settled_network |].
  destruct (resp_ok r) eqn:Hok;
    [| left; apply handleUpload_settled_rejected; now left].
  destruct (isJsonContentType (resp_contentType r)) eqn:Hct;
    [| left; apply handleUpload_settled_rejected; now right].
  destruct (resp_json r) as [v |] eqn:Hjson;
    [| left; now apply handleUpload_settled_unparsable].
  destruct (nullish v) eqn:Hv.
  - left. now apply (handleUpload_settled_nullish f r v).
  - right. exists v. now apply handleUpload_settled_rendered.
Qed.

(** ** The session flags *)

Lemma startRecording_flags (granted : bool) (lvl : nat) (w : World) :
  isPaused (ui (run (startRecording granted lvl) w)) = isPaused (ui w) /\
  (isRecording (ui (run (startRecording granted lvl) w)) = true \/
   isRecording (ui (run (startRecording granted lvl) w)) =
     isRecording (ui w)).
Proof.
  open_world w. destruct granted.
  - hstep. rewrite lookup_insert_eq. cbn [mr_state]. hstep.
    split; [reflexivity | now left].
  - split; [reflexivity | now right].
Qed.

Ltac flags_tail :=
  lazymatch goal with
  | |- context [run (startRecording ?g ?l) ?w] =>
      destruct (startRecording_flags g l w) as [-> [-> | ->]]; hstep
  | |- context [run (handleUpload_settled ?f ?res) ?w] =>
      destruct (handleUpload_settled_cases f res w) as [-> | [? ->]]; hstep
  | |- _ => hstep
  end.

(** Every event keeps the flags consistent. *)
Lemma dispatch_flags_consistent (e : Event) (w : World) :
  flags_consistent w -> flags_consistent (run (dispatch e) w).
Proof.
  unfold flags_consistent. intros H.
  destruct e; unfold dispatch; open_world w; norm_hyps; hexec; flags_tail;
    first [assumption | reflexivity | discriminate].
Qed.

Lemma play_flags_consistent (es : list Event) (w w' : World) :
  flags_consistent w -> play es w = Some w' -> flags_consistent w'.
Proof.
  revert w. induction es as [| e es IH]; intros w Hw; cbn [play].
  - now intros [= <-].
  - destruct (enabled e w); [| discriminate].
    apply IH. now apply dispatch_flags_consistent.
Qed.

(** X3. In every world the component can reach from its initial state,
    whatever the user and the browser do and in whatever order, the paused
    flag is set only while the recording flag is. *)
Theorem reachable_flags_consistent (es : list Event) (w : World) :
  play es initialWorld = Some w ->
  isPaused (ui w) = true -> isRecording (ui w) = true.
Proof.
  apply play_flags_consistent. intros H. discriminate H.
Qed.

Lemma reachable_flags_consistent_witness :
  play (startTrace ++ [ClickPause]) initialWorld = Some pausedWorld /\
  isPaused (ui pausedWorld) = true /\
  isRecording (ui pausedWorld) = true.
Proof.
  assert (H : play (startTrace ++ [ClickPause]) initialWorld = Some pausedWorld)
    by (vm_compute; reflexivity).
  assert (Hp : isPaused (ui pausedWorld) = true) by (vm_compute; reflexivity).
  split; [exact H |]. split; [exact Hp |].
  exact (reachable_flags_consistent _ _ H Hp).
Defined.

(** ** Stopping: the finished audio object *)

Lemma stopRecording_AwaitingStop (w : World) (r s : positive)
    (cs : list Chunk) :
  InSession w r s ->
  isCancellingRef (refs w) = false ->
  mr_chunks <$> recorders (env w) !! r = Some cs ->
  AwaitingStop (run stopRecording w) r s cs /\
  recordingTime (ui (run stopRecording w)) = recordingTime (ui w) /\
  showRecorder (ui (run stopRecording w)) = showRecorder (ui w).
Proof.
  intros [(i & a & c & H) | H] Hflag Hcs; open_session H; open_world w;
    norm_hyps; subst;
    (destruct (recs_ !! r) as [m |] eqn:Hm; [| discriminate]);
    cbn [fmap option_fmap option_map] in *;
    unfold stopRecording; hrun; hstep.
  all: repeat match goal with
         | |- context [match ?x with Some _ => _ | None => _ end] =>
             is_var x; destruct x; hstep
         end.
  all: split; [| split; reflexivity].
  all: split; hstep; try reflexivity;
    rewrite lookup_alter_eq, Hm; cbn [fmap option_fmap option_map set_state
                                       mr_stream mr_chunks]; assumption.
Qed.

Lemma recorderTask_AwaitingStop (w : World) (r s : positive)
    (cs : list Chunk) (data : Chunk) :
  AwaitingStop w r s cs ->
  let w' := run (dispatch (RecorderTask data)) w in
  let blob := {| blob_parts := gathered cs data; blob_type := "audio/wav" |} in
  recordedBlob (ui w') = Some blob /\
  audioSrc (refs w') = Some blob /\
  isRecording (ui w') = false /\
  isPaused (ui w') = false /\
  recordingTime (ui w') = recordingTime (ui w) /\
  showRecorder (ui w') = showRecorder (ui w) /\
  file (ui w') = file (ui w) /\
  timeouts (env w') = timeouts (env w) /\
  tasks (env w') = [].
Proof.
  intros [Ht Hs Hc Hf Hr Hp]. open_world w. norm_hyps. subst.
  destruct (recs_ !! r) as [m |] eqn:Hm; [| discriminate].
  cbn [fmap option_fmap option_map] in *.
  apply (inj Some) in Hs, Hc. subst.
  unfold dispatch, gathered. hrun. unfold ondataavailable, onstop.
  destruct (0 <? length data)%nat; hrun; hstep; repeat split.
Qed.

(** X4. Stopping a session (from [Recording] or [Paused], no
    cancellation under way) and delivering the recorder's stop event
    yields the finished audio object: a blob of type [audio/wav] made of
    the chunks gathered so far and the last chunk, unless that one is
    empty; the player is pointed at it; the elapsed time is kept for the
    summary line; and with the panel open the controls of the finished
    recording are shown instead of the start button. *)
Theorem stop_finalises_recording (w : World) (r s : positive)
    (cs : list Chunk) (data : Chunk) (now : Date) :
  InSession w r s ->
  isCancellingRef (refs w) = false ->
  mr_chunks <$> recorders (env w) !! r = Some cs ->
  let w' := run (dispatch (RecorderTask data)) (run stopRecording w) in
  let blob := {| blob_parts := gathered cs data; blob_type := "audio/wav" |} in
  recordedBlob (ui w') = Some blob /\
  audioSrc (refs w') = Some blob /\
  isRecording (ui w') = false /\
  isPaused (ui w') = false /\
  recordingTime (ui w') = recordingTime (ui w) /\
  (showRecorder (ui w) = true ->
   enabled (ClickUseRecording now) w' = true /\
   enabled ClickRecordAgain w' = true /\
   enabled ClickPlay w' = true /\
   enabled ClickStartInPanel w' = false /\
   enabled ClickStop w' = false).
Proof.
  intros H Hflag Hcs. cbn zeta.
  destruct (stopRecording_AwaitingStop w r s cs H Hflag Hcs)
    as (Ha & Ht & Hshow).
  destruct (recorderTask_AwaitingStop _ r s cs data Ha)
    as (Hb & Hsrc & Hr & Hp & Ht' & Hshow' & _).
  repeat split; try assumption; try congruence.
  all: intros; cbv beta iota zeta delta [enabled];
    rewrite ?Hb, ?Hr, ?Hshow', ?Hshow;
    match goal with Hs : showRecorder _ = true |- _ => rewrite Hs end;
    reflexivity.
Qed.

Lemma stop_finalises_recording_witness :
  InSession recordingWorld 2 1 /\
  isCancellingRef (refs recordingWorld) = false /\
  mr_chunks <$> recorders (env recordingWorld) !! 2%positive = Some [] /\
  recordedBlob
    (ui (run (dispatch (RecorderTask [Byte.x52; Byte.x49]))
             (run stopRecording recordingWorld))) =
  Some {| blob_parts := [[Byte.x52; Byte.x49]]; blob_type := "audio/wav" |}.
Proof.
  assert (H : InSession recordingWorld 2 1).
  { left. exists 5%positive, 4%positive, 3%positive.
    split; [split | ..]; vm_compute; reflexivity. }
  assert (Hf : isCancellingRef (refs recordingWorld) = false)
    by (vm_compute; reflexivity).
  assert (Hc : mr_chunks <$> recorders (env recordingWorld) !! 2%positive =
               Some []) by (vm_compute; reflexivity).
  split; [exact H |]. split; [exact Hf |]. split; [exact Hc |].
  destruct (stop_finalises_recording recordingWorld 2 1 []
              [Byte.x52; Byte.x49] sampleDate H Hf Hc) as (Hb & _).
  exact Hb.
Defined.

(** ** Starting again *)

(** The delivery of a recorder's stop event never touches the session
    flags, the elapsed time, the panel or the selected file. *)
Lemma recorderTask_ui_frame (data : Chunk) (w : World) :
  let w' := run (dispatch (RecorderTask data)) w in
  isRecording (ui w') = isRecording (ui w) /\
  isPaused (ui w') = isPaused (ui w) /\
  recordingTime (ui w') = recordingTime (ui w) /\
  showRecorder (ui w') = showRecorder (ui w) /\
  file (ui w') = file (ui w) /\
  output (ui w') = output (ui w) /\
  error (ui w') = error (ui w).
Proof.
  cbn zeta. open_world w. unfold dispatch. hexec; hstep; repeat split.
Qed.

Lemma clearRecording_effect (w : World) :
  let w' := run clearRecording w in
  recordedBlob (ui w') = None /\
  recordingTime (ui w') = 0 /\
  isPlaying (ui w') = false /\
  isPaused (ui w') = false /\
  isCancellingRef (refs w') = false /\
  audioSrc (refs w') = None /\
  animationRef (refs w') = None /\
  isRecording (ui w') = isRecording (ui w) /\
  showRecorder (ui w') = showRecorder (ui w) /\
  file (ui w') = file (ui w) /\
  output (ui w') = output (ui w) /\
  error (ui w') = error (ui w) /\
  streams (env w') = streams (env w) /\
  recorders (env w') = recorders (env w) /\
  intervals (env w') = intervals (env w) /\
  tasks (env w') = tasks (env w) /\
  frames (env w') ⊆ frames (env w).
Proof.
  cbn zeta. open_world w. destruct anim_, ctx_; hstep; repeat split;
    set_solver.
Qed.

(** X5. A cancelled session can be started again. After
    [cancelRecording] and the delivery of the stop event the panel is as
    it was, shows its start button when open, and a granted
    [startRecording] opens a new session in state [Recording] with the
    elapsed time at zero. *)
Theorem cancel_then_start_again (w : World) (r s : positive) (data : Chunk)
    (lvl : nat) :
  InSession w r s ->
  let idle := run (dispatch (RecorderTask data)) (run cancelRecording w) in
  showRecorder (ui idle) = showRecorder (ui w) /\
  enabled ClickStartInPanel idle = showRecorder (ui w) /\
  exists r' s' i a c,
    Recording (run (startRecording true lvl) idle) r' s' i a c /\
    recordingTime (ui (run (startRecording true lvl) idle)) = 0.
Proof.
  intros H. cbn zeta.
  destruct (cancelRecording_InSession w r s H)
    as [X1 X2 X3 _ [Qi Qf] X4 X5 _].
  destruct (recorderTask_Stopping _ r s 1 data X4) as [_ Yt Yi Yf Ys _].
  destruct (Ys X5) as [Yb _].
  destruct (recorderTask_ui_frame data (run cancelRecording w))
    as (Zr & Zp & _ & Zs & _).
  assert (Hshow : showRecorder (ui (run cancelRecording w)) =
                  showRecorder (ui w)).
  { clear -H. destruct H as [(i & a & c & H) | H]; session_open w H;
      unfold cancelRecording; hrun; hstep;
      repeat match goal with
        | |- context [match ?x with Some _ => _ | None => _ end] =>
            is_var x; destruct x; hstep
        end; reflexivity. }
  split; [congruence |]. split.
  - cbv beta iota zeta delta [enabled].
    rewrite Zs, Zr, Yb, Hshow, X1, X3. now destruct (showRecorder (ui w)).
  - apply startRecording_Recording.
    + split; congruence.
    + exact Yt.
    + congruence.
Qed.

Lemma cancel_then_start_again_witness :
  InSession pausedWorld 2 1 /\
  enabled ClickStartInPanel
    (run (dispatch (RecorderTask [])) (run cancelRecording pausedWorld)) =
  true.
Proof.
  assert (H : InSession pausedWorld 2 1).
  { right. split; [split | ..]; vm_compute; reflexivity. }
  split; [exact H |].
  destruct (cancel_then_start_again pausedWorld 2 1 [] 0 H) as (_ & He & _).
  exact He.
Defined.

(** X6. A finished recording can be discarded and recorded again. After
    a stop, the stop event and [clearRecording], the finished audio object
    and the elapsed time are gone, the selected file, the output and the
    error message are untouched, the open panel shows its start button,
    and a granted [startRecording] opens a new session in state
    [Recording]. *)
Theorem record_again_after_stop (w : World) (r s : positive)
    (cs : list Chunk) (data : Chunk) (lvl : nat) :
  InSession w r s ->
  isCancellingRef (refs w) = false ->
  mr_chunks <$> recorders (env w) !! r = Some cs ->
  let stopped := run (dispatch (RecorderTask data)) (run stopRecording w) in
  let idle := run clearRecording stopped in
  recordedBlob (ui idle) = None /\
  recordingTime (ui idle) = 0 /\
  file (ui idle) = file (ui w) /\
  output (ui idle) = output (ui stopped) /\
  error (ui idle) = error (ui stopped) /\
  enabled ClickStartInPanel idle = showRecorder (ui w) /\
  exists r' s' i a c,
    Recording (run (startRecording true lvl) idle) r' s' i a c /\
    recordingTime (ui (run (startRecording true lvl) idle)) = 0.
Proof.
  intros H Hflag Hcs. cbn zeta.
  destruct (stopRecording_InSession w r s H) as [_ _ [Qi Qf] S2 _ _].
  destruct (recorderTask_Stopping _ r s 0 data S2) as [_ Yt Yi Yf _ _].
  destruct (stopRecording_AwaitingStop w r s cs H Hflag Hcs)
    as (Ha & _ & Hshow).
  destruct (recorderTask_AwaitingStop _ r s cs data Ha)
    as (_ & _ & Hr & _ & _ & Hshow' & Hfile & _).
  assert (Hfile0 : file (ui (run stopRecording w)) = file (ui w)).
  { clear -H. destruct H as [(i & a & c & H) | H]; session_open w H;
      unfold stopRecording; hrun; hstep;
      repeat match goal with
        | |- context [match ?x with Some _ => _ | None => _ end] =>
            is_var x; destruct x; hstep
        end; reflexivity. }
  destruct (clearRecording_effect
              (run (dispatch (RecorderTask data)) (run stopRecording w)))
    as (Cb & Ct & _ & Cp & _ & _ & _ & Cr & Cs & Cf & Co & Ce & _ & _ &
        Ci & Ctk & Cfr).
  repeat split; try assumption; try congruence.
  - cbv beta iota zeta delta [enabled].
    rewrite Cs, Cr, Cb, Hshow', Hshow, Hr.
    now destruct (showRecorder (ui w)).
  - apply startRecording_Recording.
    + split; [congruence |]. rewrite Yf, Qf in Cfr. set_solver.
    + congruence.
    + exact Cp.
Qed.

Lemma record_again_after_stop_witness :
  InSession recordingWorld 2 1 /\
  isCancellingRef (refs recordingWorld) = false /\
  mr_chunks <$> recorders (env recordingWorld) !! 2%positive = Some [] /\
  recordedBlob
    (ui (run clearRecording
           (run (dispatch (RecorderTask []))
                (run stopRecording recordingWorld)))) = None.
Proof.
  assert (H : InSession recordingWorld 2 1).
  { left. exists 5%positive, 4%positive, 3%positive.
    split; [split | ..]; vm_compute; reflexivity. }
  assert (Hf : isCancellingRef (refs recordingWorld) = false)
    by (vm_compute; reflexivity).
  assert (Hc : mr_chunks <$> recorders (env recordingWorld) !! 2%positive =
               Some []) by (vm_compute; reflexivity).
  split; [exact H |]. split; [exact Hf |]. split; [exact Hc |].
  destruct (record_again_after_stop recordingWorld 2 1 [] [] 0 H Hf Hc)
    as (Hb & _).
  exact Hb.
Defined.

(** ** Using a recording as the input *)

Lemma generateRecordingFilename_stem (now : Date) :
  generateRecordingFilename now = recordingStem now +:+ String "." "wav".
Proof.
  unfold generateRecordingFilename, recordingStem. cbn zeta.
  now rewrite !append_assoc.
Qed.

Lemma audio_wav_accepted (name : string) (parts : list Chunk) :
  let f := {| file_name := name; file_type := "audio/wav";
              file_parts := parts |} in
  isTextFile f || isAudioFile f = true.
Proof.
  cbn zeta. unfold isAudioFile. cbn [file_type].
  replace (Js.startsWith "audio/wav" "audio/") with true by reflexivity.
  cbn [orb]. apply orb_true_r.
Qed.

Lemma useRecording_eq (w : World) (now : Date) (b : Blob) :
  recordedBlob (ui w) = Some b ->
  run (useRecording now) w =
  with_error
    (with_showRecorder
       (with_file w (Some {| file_name := generateRecordingFilename now;
                             file_type := "audio/wav";
                             file_parts := blob_parts b |})) false) None.
Proof. intros Hb. open_world w. norm_hyps. subst. reflexivity. Qed.

(** X7. [useRecording] packages the finished audio object as the
    submission input: a file of type [audio/wav] with the blob's content,
    named [recording_<date>_<time>.wav]; it closes the panel and clears
    the error. That file passes the type check of the file intake, and a
    note downloaded afterwards is named after the recording without its
    extension. Without a finished audio object [useRecording] does
    nothing. *)
Theorem useRecording_packages_blob (w : World) (b : Blob)
    (now later : Date) (content : JsValue) (type : string) :
  recordedBlob (ui w) = Some b ->
  let f := {| file_name := generateRecordingFilename now;
              file_type := "audio/wav";
              file_parts := blob_parts b |} in
  let w' := run (useRecording now) w in
  file (ui w') = Some f /\
  showRecorder (ui w') = false /\
  error (ui w') = None /\
  recordedBlob (ui w') = Some b /\
  isTextFile f || isAudioFile f = true /\
  run (handleFileSelect f) w' = w' /\
  dl_filename (downloadFile content type later w') =
    recordingStem now +:+ "_" +:+ type +:+ "_" +:+
    Js.split_head "T" (toISOString later) +:+ ".txt" /\
  forall w0,
    recordedBlob (ui w0) = None -> run (useRecording now) w0 = w0.
Proof.
  intros Hb. cbn zeta. rewrite (useRecording_eq w now b Hb).
  pose proof (audio_wav_accepted (generateRecordingFilename now)
                (blob_parts b)) as Hacc. cbn zeta in Hacc.
  split; [reflexivity |]. split; [reflexivity |].
  split; [reflexivity |].
  split; [open_world w; exact Hb |].
  split; [exact Hacc |]. split; [| split].
  - unfold handleFileSelect. rewrite Hacc. open_world w. reflexivity.
  - unfold downloadFile. cbn [dl_filename].
    replace (file (ui (with_error (with_showRecorder (with_file w _) false)
                         None)))
      with (Some {| file_name := generateRecordingFilename now;
                    file_type := "audio/wav";
                    file_parts := blob_parts b |}) by reflexivity.
    cbn [file_name].
    now rewrite generateRecordingFilename_stem, strip_extension_ext.
  - intros w0 H0. open_world w0. norm_hyps. subst. reflexivity.
Qed.

Lemma useRecording_packages_blob_witness :
  recordedBlob (ui stoppedWorld) =
    Some {| blob_parts := [[Byte.x52; Byte.x49]]; blob_type := "audio/wav" |} /\
  (file_name <$> file (ui (run (useRecording sampleDate) stoppedWorld))) =
    Some "recording_2025-03-09_00-05-07.wav".
Proof.
  assert (Hb : recordedBlob (ui stoppedWorld) =
               Some {| blob_parts := [[Byte.x52; Byte.x49]];
                       blob_type := "audio/wav" |})
    by (vm_compute; reflexivity).
  split; [exact Hb |].
  destruct (useRecording_packages_blob stoppedWorld _ sampleDate sampleDate
              JNull "SOAP-Note" Hb) as (Hf & _).
  rewrite Hf. vm_compute. reflexivity.
Defined.

(** ** The reset button *)

(** X8. The reset button puts every React state back to its initial
    value, except the uploading flag, which it does not touch; it empties
    the file input and the player and clears the cancelling flag; it
    leaves the recorder, stream and interval refs as they are. Pressing
    it twice is the same as pressing it once. *)
Theorem generateAnotherNote_resets (w : World) :
  let w' := run generateAnotherNote w in
  ui w' = ui (with_isUploading initialWorld (isUploading (ui w))) /\
  isCancellingRef (refs w') = false /\
  animationRef (refs w') = None /\
  audioContextRef (refs w') = None /\
  analyserRef (refs w') = None /\
  audioSrc (refs w') = None /\
  fileInputValue (refs w') = "" /\
  mediaRecorderRef (refs w') = mediaRecorderRef (refs w) /\
  streamRef (refs w') = streamRef (refs w) /\
  intervalRef (refs w') = intervalRef (refs w) /\
  intervals (env w') = intervals (env w) /\
  streams (env w') = streams (env w) /\
  recorders (env w') = recorders (env w) /\
  run generateAnotherNote w' = w'.
Proof.
  cbn zeta. open_world w. destruct anim_, ctx_; hstep; repeat split.
Qed.

(** ** File intake *)

(** X9. [handleFileSelect] makes a file the active input exactly when it
    belongs to the accepted set, and then clears the error; otherwise it
    clears the input and sets the message. Nothing else changes. *)
Theorem handleFileSelect_accepts_exactly (f : File) (w : World) :
  (file (ui (run (handleFileSelect f) w)) = Some f <-> accepted_type f) /\
  (error (ui (run (handleFileSelect f) w)) = None <-> accepted_type f) /\
  (accepted_type f ->
   run (handleFileSelect f) w = with_error (with_file w (Some f)) None) /\
  (~ accepted_type f ->
   run (handleFileSelect f) w =
   with_file (with_error w (Some unsupportedTypeError)) None).
Proof.
  rewrite <- accepted_type_iff. unfold handleFileSelect.
  destruct (isTextFile f || isAudioFile f); open_world w; hstep.
  - repeat split; intros; try reflexivity; try discriminate.
    exfalso; auto.
  - repeat split; intros; try reflexivity; discriminate.
Qed.

(** ** Submission, whatever the response, continued *)

(** A settled request ends in one of two worlds, and the response decides
    in which. *)
Lemma handleUpload_settled_decided (f : File) (res : FetchResult)
    (w : World) :
  (exists r v,
      res = Responded r /\ json_success r v /\ nullish v = false /\
      run (handleUpload_settled f res) w =
      with_isUploading (with_output w (Some (rendered f v))) false) \/
  ((forall r v, res = Responded r -> json_success r v -> nullish v = true) /\
   run (handleUpload_settled f res) w =
   with_isUploading (with_error w (Some uploadError)) false).
Proof.
  destruct res as [| r].
  { right. split; [discriminate | apply handleUpload_settled_network]. }
  destruct (resp_ok r) eqn:Hok.
  2:{ right. split; [| apply handleUpload_settled_rejected; now left].
      intros r' v [= <-] (H & _). congruence. }
  destruct (isJsonContentType (resp_contentType r)) eqn:Hct.
  2:{ right. split; [| apply handleUpload_settled_rejected; now right].
      intros r' v [= <-] (_ & H & _). congruence. }
  destruct (resp_json r) as [v |] eqn:Hjson.
  2:{ right. split; [| now apply handleUpload_settled_unparsable].
      intros r' v [= <-] (_ & _ & H). congruence. }
  destruct (nullish v) eqn:Hv.
  - right. split; [| now apply (handleUpload_settled_nullish f r v)].
    intros r' v' [= <-] (_ & _ & H). congruence.
  - left. exists r, v. repeat split; try assumption.
    now apply handleUpload_settled_rendered.
Qed.

(** X10. Whatever the request does (network failure, any status, any
    content type, any body), a submission ends with the uploading flag
    off and in exactly one of two ways. Either the response has a status
    in 200-299, passes the content-type check and has a body that parses
    to something other than [null]: then the output is replaced by what
    that body renders and no error is shown. Or it is not such a
    response: then the error message is set and the output is as before.
    The submission never touches the selected file, the recording state,
    the refs or the browser. *)
Theorem handleUpload_outcomes (w : World) (f : File) (res : FetchResult) :
  file (ui w) = Some f ->
  let w' := run (handleUpload res) w in
  isUploading (ui w') = false /\
  ((exists r v,
       res = Responded r /\ json_success r v /\ nullish v = false /\
       error (ui w') = None /\ output (ui w') = Some (rendered f v)) \/
   ((forall r v, res = Responded r -> json_success r v -> nullish v = true) /\
    error (ui w') = Some uploadError /\ output (ui w') = output (ui w))) /\
  file (ui w') = Some f /\
  isRecording (ui w') = isRecording (ui w) /\
  isPaused (ui w') = isPaused (ui w) /\
  recordedBlob (ui w') = recordedBlob (ui w) /\
  recordingTime (ui w') = recordingTime (ui w) /\
  showRecorder (ui w') = showRecorder (ui w) /\
  outputSelection (ui w') = outputSelection (ui w) /\
  refs w' = refs w /\ env w' = env w.
Proof.
  intros Hf. cbn zeta. rewrite (handleUpload_eq _ _ _ Hf).
  destruct (handleUpload_settled_decided f res
              (with_error (with_isUploading w true) None))
    as [(r & v & Hres & Hr & Hv & ->) | [Hno ->]];
    open_world w; norm_hyps; subst; repeat split.
  - left. exists r, v.
    exact (conj eq_refl (conj Hr (conj Hv (conj eq_refl eq_refl)))).
  - right. exact (conj Hno (conj eq_refl eq_refl)).
Qed.

Lemma handleUpload_outcomes_witness :
  file (ui selectedWorld) = Some sampleAudio /\
  isUploading (ui (run (handleUpload (Responded (jsonResponse bothBody)))
                     selectedWorld)) = false /\
  output (ui (run (handleUpload (Responded (jsonResponse bothBody)))
                selectedWorld)) = Some (rendered sampleAudio bothBody).
Proof.
  assert (Hf : file (ui selectedWorld) = Some sampleAudio) by reflexivity.
  split; [exact Hf |].
  destruct (handleUpload_outcomes _ sampleAudio
              (Responded (jsonResponse bothBody)) Hf)
    as (Hu & [(r & v & [= <-] & (_ & _ & [= <-]) & _ & _ & Ho)
             | (Hno & _)] & _).
  - split; [exact Hu | exact Ho].
  - discriminate (Hno _ _ eq_refl (jsonResponse_success bothBody)).
Defined.

(** X11. When a response carries both naming conventions, the new one
    wins: with [soap_note_text] and [patient_summary_text] both truthy
    those two are rendered, whatever [soapNote] and [patientSummary] hold.
    The legacy pair is rendered only when the new pair is incomplete and
    the legacy pair is complete. *)
Theorem new_convention_takes_precedence (w : World) (f : File)
    (r : Response) (v : JsValue) :
  file (ui w) = Some f ->
  json_success r v ->
  (pair_present v "soap_note_text" "patient_summary_text" = true ->
   output (ui (run (handleUpload (Responded r)) w)) = Some (newPair v)) /\
  (pair_present v "soap_note_text" "patient_summary_text" = false ->
   pair_present v "soapNote" "patientSummary" = true ->
   output (ui (run (handleUpload (Responded r)) w)) = Some (legacyPair v)).
Proof.
  intros Hf Hr.
  assert (Hn : forall k1 k2, pair_present v k1 k2 = true -> nullish v = false).
  { intros k1 k2. unfold pair_present, prop. now destruct v. }
  split.
  - intros Hnew. rewrite (handleUpload_eq _ _ _ Hf).
    rewrite (handleUpload_settled_rendered _ _ _ _ Hr (Hn _ _ Hnew)).
    cbn [output ui with_isUploading with_output]. unfold rendered.
    now rewrite Hnew.
  - intros Hnew Hold. rewrite (handleUpload_eq _ _ _ Hf).
    rewrite (handleUpload_settled_rendered _ _ _ _ Hr (Hn _ _ Hold)).
    cbn [output ui with_isUploading with_output]. unfold rendered.
    now rewrite Hnew, Hold.
Qed.

Lemma new_convention_takes_precedence_witness :
  file (ui selectedWorld) = Some sampleAudio /\
  json_success (jsonResponse bothBody) bothBody /\
  output (ui (run (handleUpload (Responded (jsonResponse bothBody)))
                  selectedWorld)) =
    Some {| soapNote := JStr "Note, new format";
            patientSummary := JStr "Summary, new format" |}.
Proof.
  assert (Hf : file (ui selectedWorld) = Some sampleAudio) by reflexivity.
  split; [exact Hf |]. split; [apply jsonResponse_success |].
  destruct (new_convention_takes_precedence _ sampleAudio _ bothBody Hf
              (jsonResponse_success bothBody)) as (Hnew & _).
  apply Hnew. reflexivity.
Defined.

(** ** The earlier version of the submission *)

Lemma Original_settled_labelled (f : File) (r : Response) (w : World) :
  run (Original.handleUpload_settled f (Responded r)) w =
  run (handleUpload_settled f (Responded (labelled_json r))) w.
Proof.
  open_world w. unfold Original.handleUpload_settled. hstep.
  unfold labelled_json, resp_ok. cbn [resp_status resp_contentType resp_json].
  replace (isJsonContentType (Some "application/json")) with true
    by reflexivity.
  reflexivity.
Qed.

Lemma settled_labelled (f : File) (r : Response) (w : World) :
  isJsonContentType (resp_contentType r) = true ->
  run (handleUpload_settled f (Responded (labelled_json r))) w =
  run (handleUpload_settled f (Responded r)) w.
Proof.
  intros Hct. open_world w. hstep. rewrite Hct.
  unfold labelled_json, resp_ok. cbn [resp_status resp_contentType resp_json].
  replace (isJsonContentType (Some "application/json")) with true
    by reflexivity.
  reflexivity.
Qed.

(** X12. The content-type check is the only difference between the two
    versions of [handleUpload] in the file. The earlier one treats every
    response as the later one treats the same response labelled
    [application/json]; so they agree on network failures and whenever the
    content type passes the check, and they differ on a successful
    response with another content type whose body parses to something
    other than [null]: the earlier version renders it, the later one shows
    the error and keeps the output. *)
Theorem content_type_check_is_the_difference (f : File) (r : Response)
    (w : World) :
  run (Original.handleUpload_settled f (Responded r)) w =
    run (handleUpload_settled f (Responded (labelled_json r))) w /\
  run (Original.handleUpload_settled f NetworkError) w =
    run (handleUpload_settled f NetworkError) w /\
  (isJsonContentType (resp_contentType r) = true ->
   run (Original.handleUpload_settled f (Responded r)) w =
     run (handleUpload_settled f (Responded r)) w) /\
  (forall v,
      resp_ok r = true ->
      isJsonContentType (resp_contentType r) = false ->
      resp_json r = Some v -> nullish v = false ->
      output (ui (run (Original.handleUpload_settled f (Responded r)) w)) =
        Some (rendered f v) /\
      output (ui (run (handleUpload_settled f (Responded r)) w)) =
        output (ui w) /\
      error (ui (run (handleUpload_settled f (Responded r)) w)) =
        Some uploadError).
Proof.
  split; [apply Original_settled_labelled |].
  split; [open_world w; reflexivity |].
  split.
  - intros Hct. rewrite Original_settled_labelled. now apply settled_labelled.
  - intros v Hok Hct Hjson Hv.
    rewrite Original_settled_labelled.
    rewrite (handleUpload_settled_rendered f (labelled_json r) v)
      by (assumption || (repeat split; assumption)).
    rewrite handleUpload_settled_rejected by now right.
    open_world w. repeat split.
Qed.

(** ** Counting the seconds *)

Lemma ticks (k : nat) (w : World) :
  intervals (env (Nat.iter k (run tick) w)) = intervals (env w) /\
  recordingTime (ui (Nat.iter k (run tick) w)) = recordingTime (ui w) + k.
Proof.
  induction k as [| k [IHi IHt]].
  - split; [reflexivity | simpl; lia].
  - rewrite Nat.iter_succ.
    destruct (tick_intervals (Nat.iter k (run tick) w)) as [Ei Et].
    rewrite Ei, Et. split; [assumption | lia].
Qed.

(** Each second adds as many units as there are live intervals. *)
Lemma seconds_pass (n : nat) (w : World) :
  intervals (env (Nat.iter n second_passes w)) = intervals (env w) /\
  recordingTime (ui (Nat.iter n second_passes w)) =
    recordingTime (ui w) + n * size (intervals (env w)).
Proof.
  induction n as [| n [IHi IHt]].
  - split; [reflexivity | simpl; lia].
  - rewrite Nat.iter_succ. unfold second_passes at 1 3.
    destruct (ticks (size (intervals (env (Nat.iter n second_passes w))))
                (Nat.iter n second_passes w)) as [Ei Et].
    rewrite Ei, Et, IHi, IHt. split; [reflexivity | lia].
Qed.

(** X13. A granted [startRecording] on an idle world (nothing alive or
    queued, not paused) resets the elapsed time, and [n] seconds later the
    counter reads [n]. *)
Theorem start_counts_seconds (w : World) (lvl n : nat) :
  Quiet w -> tasks (env w) = [] -> isPaused (ui w) = false ->
  recordingTime (ui (run (startRecording true lvl) w)) = 0 /\
  recordingTime
    (ui (Nat.iter n second_passes (run (startRecording true lvl) w))) = n.
Proof.
  intros Hq Ht Hp.
  destruct (startRecording_Recording w lvl Hq Ht Hp)
    as (r & s & i & a & c & Hrec & H0).
  split; [exact H0 |].
  destruct Hrec as [_ _ _ _ Hi _ _ _].
  destruct (seconds_single_interval i n _ Hi) as [_ E]. rewrite E, H0.
  reflexivity.
Qed.

Lemma start_counts_seconds_witness :
  Quiet initialWorld /\ tasks (env initialWorld) = [] /\
  isPaused (ui initialWorld) = false /\
  recordingTime
    (ui (Nat.iter 7 second_passes (run (startRecording true 0) initialWorld)))
  = 7.
Proof.
  assert (Hq : Quiet initialWorld) by (split; reflexivity).
  assert (Ht : tasks (env initialWorld) = []) by reflexivity.
  assert (Hp : isPaused (ui initialWorld) = false) by reflexivity.
  split; [exact Hq |]. split; [exact Ht |]. split; [exact Hp |].
  destruct (start_counts_seconds initialWorld 0 7 Hq Ht Hp) as (_ & E).
  exact E.
Defined.

(** ** The download basename *)

(** X14. Stripping the extension only ever removes one trailing
    extension: the result is the name itself, or the name without a last
    dot and the characters after it, of which there is at least one and
    none is a dot or a slash. *)
Theorem strip_extension_removes_one_extension (name : string) :
  exists rest,
    name = Js.strip_extension name +:+ rest /\
    (rest = "" \/ exists ext, rest = String "." ext /\ Js.ext_tail ext = true).
Proof.
  induction name as [| c name (rest & E & Hrest)]; simpl.
  - exists "". split; [reflexivity | now left].
  - destruct (Ascii.eqb c "." && Js.ext_tail name) eqn:Hc.
    + apply andb_prop in Hc as [Hdot Hext]. apply Ascii.eqb_eq in Hdot.
      subst c. exists (String "." name). split; [reflexivity |].
      right. now exists name.
    + exists rest. split; [simpl; now f_equal | exact Hrest].
Qed.

(** ** One submission at a time *)

Lemma startRecording_upload_frame (granted : bool) (lvl : nat) (w : World) :
  isUploading (ui (run (startRecording granted lvl) w)) = isUploading (ui w) /\
  pendingFetches (env (run (startRecording granted lvl) w)) =
    pendingFetches (env w).
Proof.
  open_world w. destruct granted.
  - hstep. rewrite lookup_insert_eq. cbn [mr_state]. hstep.
    split; reflexivity.
  - split; reflexivity.
Qed.

Ltac flight_tail :=
  lazymatch goal with
  | |- context [run (startRecording ?g ?l) ?w] =>
      destruct (startRecording_upload_frame g l w) as [-> ->]; hstep
  | |- context [run (handleUpload_settled ?f ?res) ?w] =>
      destruct (handleUpload_settled_cases f res w) as [-> | [? ->]]; hstep
  | |- _ => hstep
  end.

(** Every event that the rendered page allows keeps it so. *)
Lemma dispatch_single_flight (e : Event) (w : World) :
  enabled e w = true -> single_flight w -> single_flight (run (dispatch e) w).
Proof.
  unfold single_flight. intros He H.
  destruct e; unfold dispatch; open_world w;
    cbv beta iota zeta delta [enabled non_empty] in He; norm_hyps;
    hexec; flight_tail;
    try assumption;
    repeat match goal with
           | H : context [if ?b then _ else _] |- _ => destruct b
           end;
    cbn [length] in *; rewrite ?length_app in *; cbn [length] in *;
    first [lia | discriminate].
Qed.

Lemma play_single_flight (es : list Event) (w w' : World) :
  single_flight w -> play es w = Some w' -> single_flight w'.
Proof.
  revert w. induction es as [| e es IH]; intros w Hw; cbn [play].
  - now intros [= <-].
  - destruct (enabled e w) eqn:He; [| discriminate].
    apply IH. now apply dispatch_single_flight.
Qed.

(** X15. The Generate button is disabled while a submission is under way,
    so in every world the component can reach there is at most one request
    in flight, and there is one exactly while [isUploading] is set. *)
Theorem reachable_single_flight (es : list Event) (w : World) :
  play es initialWorld = Some w ->
  length (pendingFetches (env w)) = if isUploading (ui w) then 1 else 0.
Proof.
  apply play_single_flight. reflexivity.
Qed.

Lemma reachable_single_flight_witness :
  play [SelectFiles [sampleAudio]; ClickGenerate] initialWorld =
    Some (run (dispatch ClickGenerate)
            (run (dispatch (SelectFiles [sampleAudio])) initialWorld)) /\
  length (pendingFetches (env
    (run (dispatch ClickGenerate)
       (run (dispatch (SelectFiles [sampleAudio])) initialWorld)))) = 1.
Proof.
  assert (H : play [SelectFiles [sampleAudio]; ClickGenerate] initialWorld =
    Some (run (dispatch ClickGenerate)
            (run (dispatch (SelectFiles [sampleAudio])) initialWorld)))
    by (vm_compute; reflexivity).
  split; [exact H |].
  exact (reachable_single_flight _ _ H).
Defined.

(** ** A second start while a recording runs *)

Lemma two_intervals (i j : positive) :
  i <> j -> size ({[j]} ∪ ({[i]} : gset positive)) = 2.
Proof.
  intros H. rewrite size_union by set_solver. now rewrite !size_singleton.
Qed.

Ltac old_session :=
  lazymatch goal with
  | |- _ ∈ _ => set_solver
  | |- match _ !! _ with _ => _ end = _ =>
      rewrite ?lookup_alter_ne, ?lookup_insert_ne by lia;
      rewrite_recorder; assumption
  | |- _ !! _ = _ =>
      rewrite ?lookup_alter_ne, ?lookup_insert_ne by lia; assumption
  end.

(** X16. [startRecording] does not look at the session it finds. When a
    second request for the microphone is granted while a recording runs,
    the refs are overwritten with a new recorder, stream and interval; the
    first interval stays alive beside the new one, so the elapsed time
    advances by two each second; and neither [stopRecording] nor
    [cancelRecording] reaches the first session any more: its interval
    stays alive, its recorder stays in state [recording] and its stream
    gets no release call. *)
Theorem second_start_orphans_first (w : World) (r s i a c : positive)
    (lvl n : nat) :
  Recording w r s i a c ->
  (r < next_id (env w))%positive ->
  (s < next_id (env w))%positive ->
  (i < next_id (env w))%positive ->
  (mediaRecorderRef (refs (run (startRecording true lvl) w)) <> Some r /\
   streamRef (refs (run (startRecording true lvl) w)) <> Some s /\
   intervalRef (refs (run (startRecording true lvl) w)) <> Some i) /\
  recordingTime
    (ui (Nat.iter n second_passes (run (startRecording true lvl) w))) =
    2 * n /\
  (forall after,
      after = stopRecording \/ after = cancelRecording ->
      i ∈ intervals (env (run after (run (startRecording true lvl) w))) /\
      recorder_state r (run after (run (startRecording true lvl) w)) =
        recording /\
      streams (env (run after (run (startRecording true lvl) w))) !! s =
        Some 0).
Proof.
  intros H Hr Hs Hi. session_open w H.
  set (w1 := run (startRecording true lvl) _).
  eassert (E : w1 = _).
  { subst w1. hstep. rewrite lookup_insert_eq. cbn [mr_state]. hstep.
    reflexivity. }
  clearbody w1. subst w1.
  split; [| split].
  - hstep. repeat split; intros [= E]; lia.
  - match goal with
    | |- context [Nat.iter n second_passes ?x] =>
        destruct (seconds_pass n x) as [_ ->]
    end.
    hstep. rewrite two_intervals by lia. lia.
  - assert (Hne : i <> Pos.succ (Pos.succ (Pos.succ (Pos.succ nid_))))
      by lia.
    intros after [-> | ->]; [unfold stopRecording | unfold cancelRecording];
      hrun; hstep; repeat split; old_session.
Qed.

Lemma second_start_orphans_first_witness :
  Recording recordingWorld 2 1 5 4 3 /\
  recordingTime
    (ui (Nat.iter 3 second_passes
           (run (startRecording true 0) recordingWorld))) = 2 * 3 /\
  streams (env (run stopRecording
                  (run (startRecording true 0) recordingWorld)))
    !! 1%positive = Some 0.
Proof.
  assert (H : Recording recordingWorld 2 1 5 4 3)
    by (split; [split | ..]; vm_compute; reflexivity).
  assert (Hr : (2 < next_id (env recordingWorld))%positive)
    by (vm_compute; reflexivity).
  assert (Hs : (1 < next_id (env recordingWorld))%positive)
    by (vm_compute; reflexivity).
  assert (Hi : (5 < next_id (env recordingWorld))%positive)
    by (vm_compute; reflexivity).
  split; [exact H |].
  destruct (second_start_orphans_first recordingWorld 2 1 5 4 3 0 3
              H Hr Hs Hi) as (_ & Ht & Hafter).
  split; [exact Ht |].
  destruct (Hafter stopRecording (or_introl eq_refl)) as (_ & _ & Hstream).
  exact Hstream.
Defined.



(** * Sessions held by the component, and sessions displaced *)

(** [stopRecording], [cancelRecording] and [pauseRecording] act on the
    recorder, the stream and the callbacks whose handles the refs hold.
    The lemmas of this part assume no more than that, so they also apply
    to the session that a second start has put into the refs; what
    becomes of the session it has displaced is shown at the end. *)

Ltac open_held w H :=
  destruct H as [? ? ? ? ? ?]; open_world w; norm_hyps; subst; use_recorder;
  match goal with
  | Hm : _ !! _ = Some ?m, Hr : mr_state ?m <> inactive |- _ =>
      destruct m as [? [] ?]; cbn [mr_state mr_stream] in *;
      [now contradict Hr | ..]; clear Hr; subst
  end.

Ltac split_refs :=
  repeat match goal with
         | |- context [match ?x with Some _ => _ | None => _ end] =>
             is_var x; destruct x; hstep
         end.

(** A session in state [Recording] or [Paused] is held. *)
Lemma InSession_Held (w : World) (r s : positive) :
  InSession w r s -> Held w r s.
Proof.
  intros [(i & a & c & [[? ? ? ? ? ?] ? Hst ? ? ? ? ?])
         | [[? ? ? ? ? ?] ? Hst ? ? ? ?]];
    split; try assumption; rewrite Hst; discriminate.
Qed.

Lemma InSession_OnlyHeld (w : World) (r s : positive) :
  InSession w r s -> OnlyHeld w.
Proof.
  unfold OnlyHeld, held_interval, held_frame.
  intros [(i & a & c & [_ _ _ Hi Hs Ha Hf _]) | [_ _ _ Hs _ Hf _]].
  - rewrite Hi, Hs, Ha, Hf. split; reflexivity.
  - rewrite Hs, Hf. split; set_solver.
Qed.

Lemma stopRecording_Held (w : World) (r s : positive) :
  Held w r s ->
  isRecording (ui (run stopRecording w)) = false /\
  isPaused (ui (run stopRecording w)) = false /\
  streams (env (run stopRecording w)) = streams (env w) /\
  tasks (env (run stopRecording w)) = (tasks (env w) ++ [r])%list /\
  mr_stream <$> recorders (env (run stopRecording w)) !! r = Some s /\
  intervals (env (run stopRecording w)) = intervals (env w) ∖ held_interval w /\
  frames (env (run stopRecording w)) = frames (env w) ∖ held_frame w.
Proof.
  intros H. unfold held_interval, held_frame. open_held w H;
    unfold stopRecording; hrun; hstep; split_refs;
    repeat split; try reflexivity; try captured; set_solver.
Qed.

Lemma cancelRecording_Held (w : World) (r s : positive) :
  Held w r s ->
  isRecording (ui (run cancelRecording w)) = false /\
  isPaused (ui (run cancelRecording w)) = false /\
  recordedBlob (ui (run cancelRecording w)) = None /\
  isCancellingRef (refs (run cancelRecording w)) = true /\
  streams (env (run cancelRecording w)) = alter S s (streams (env w)) /\
  tasks (env (run cancelRecording w)) = (tasks (env w) ++ [r])%list /\
  mr_stream <$> recorders (env (run cancelRecording w)) !! r = Some s /\
  intervals (env (run cancelRecording w)) =
    intervals (env w) ∖ held_interval w /\
  frames (env (run cancelRecording w)) = frames (env w) ∖ held_frame w.
Proof.
  intros H. unfold held_interval, held_frame. open_held w H;
    unfold cancelRecording; hrun; hstep; split_refs;
    repeat split; try reflexivity; try captured; set_solver.
Qed.

(** The stop event of a recorder, whenever it is delivered: one release
    call on the stream the recorder captures, and no finished audio
    object while the cancelling flag is set. *)
Lemma recorderTask_delivers (w : World) (r s : positive)
    (rest : list positive) (data : Chunk) :
  tasks (env w) = r :: rest ->
  mr_stream <$> recorders (env w) !! r = Some s ->
  streams (env (run (dispatch (RecorderTask data)) w)) =
    alter S s (streams (env w)) /\
  tasks (env (run (dispatch (RecorderTask data)) w)) = rest /\
  (isCancellingRef (refs w) = true ->
   recordedBlob (ui (run (dispatch (RecorderTask data)) w)) =
     recordedBlob (ui w)).
Proof.
  intros Ht Hc. open_world w. norm_hyps. subst. use_recorder.
  unfold dispatch. hrun. unfold ondataavailable, onstop.
  destruct (0 <? length data)%nat; hrun; destruct canc_; hstep;
    repeat split; try reflexivity; try discriminate; now subst.
Qed.

(** No recorder event revives a periodic callback. *)
Lemma recorderTask_callbacks (w : World) (data : Chunk) :
  intervals (env (run (dispatch (RecorderTask data)) w)) = intervals (env w) /\
  frames (env (run (dispatch (RecorderTask data)) w)) = frames (env w).
Proof.
  unfold dispatch. open_world w. hexec; hstep; split; reflexivity.
Qed.

Lemma alter_release (strs : gmap positive nat) (s : positive) (k : nat) :
  strs !! s = Some k -> alter S s strs !! s = Some (S k).
Proof. intros H. now rewrite lookup_alter_eq, H. Qed.

Lemma pauseRecording_Held (w : World) (r s : positive) :
  Held w r s ->
  Held (run pauseRecording w) r s /\
  (OnlyHeld w -> OnlyHeld (run pauseRecording w)) /\
  (OnlyHeld w -> isPaused (ui w) = false -> Quiet (run pauseRecording w)).
Proof.
  intros H. unfold OnlyHeld, Quiet, held_interval, held_frame.
  open_held w H; unfold pauseRecording; hrun; destruct pau_; hrun; hstep;
    split_refs.
  all: split; [split; hstep; first [reflexivity | discriminate | captured
                                    | rewrite_recorder; discriminate
                                    | idtac] |].
  all: try (rewrite lookup_alter_eq; rewrite_recorder; discriminate).
  all: split; [intros [Hi Hf] | intros [Hi Hf] Hp; try discriminate];
    split; set_solver.
Qed.

Lemma Held_exit_quiet (w : World) (r s : positive) :
  Held w r s -> OnlyHeld w ->
  Quiet (run stopRecording w) /\ Quiet (run cancelRecording w).
Proof.
  intros H [Hi Hf].
  destruct (stopRecording_Held w r s H) as (_ & _ & _ & _ & _ & Si & Sf).
  destruct (cancelRecording_Held w r s H)
    as (_ & _ & _ & _ & _ & _ & _ & Xi & Xf).
  unfold Quiet. rewrite Si, Sf, Xi, Xf. split; split; set_solver.
Qed.

Lemma Quiet_delivered (w : World) (data : Chunk) :
  Quiet w -> Quiet (run (dispatch (RecorderTask data)) w).
Proof.
  intros [Hi Hf]. destruct (recorderTask_callbacks w data) as [Ei Ef].
  split; congruence.
Qed.

(** The reset button and the periodic callbacks. *)
Lemma generateAnotherNote_frames (w : World) :
  frames (env (run generateAnotherNote w)) = frames (env w) ∖ held_frame w /\
  animationRef (refs (run generateAnotherNote w)) = None /\
  intervals (env (run generateAnotherNote w)) = intervals (env w).
Proof.
  unfold held_frame. open_world w. destruct anim_, ctx_; hstep;
    repeat split; set_solver.
Qed.

(** ** Release of the capture device *)

(** C1, as amended. Take the session that the component holds in state
    [Recording] or [Paused]: the refs hold its recorder and its stream.
    [stopRecording] issues no release call itself and queues one stop
    event for the recorder; [cancelRecording] issues one release call on
    the stream at once and queues one stop event too. When that event is
    delivered, whenever that is, [onstop] issues one release call on the
    stream. So the acquisition gets exactly one release call on the exit
    through [stopRecording] and two on the exit through [cancelRecording],
    the second one redundant. Component teardown runs no cleanup function
    and so releases nothing. *)
Theorem C1_release_on_stop_and_cancel (w : World) (r s : positive)
    (data : Chunk) :
  Held w r s ->
  let stopped := run stopRecording w in
  let cancelled := run cancelRecording w in
  let deliver := run (dispatch (RecorderTask data)) in
  (isRecording (ui stopped) = false /\
   streams (env stopped) = streams (env w) /\
   tasks (env stopped) = (tasks (env w) ++ [r])%list /\
   mr_stream <$> recorders (env stopped) !! r = Some s) /\
  (isRecording (ui cancelled) = false /\
   streams (env cancelled) !! s = Some 1 /\
   tasks (env cancelled) = (tasks (env w) ++ [r])%list /\
   mr_stream <$> recorders (env cancelled) !! r = Some s) /\
  (forall w2 k rest,
      tasks (env w2) = r :: rest ->
      mr_stream <$> recorders (env w2) !! r = Some s ->
      streams (env w2) !! s = Some k ->
      streams (env (deliver w2)) !! s = Some (S k) /\
      tasks (env (deliver w2)) = rest) /\
  (tasks (env w) = [] ->
   streams (env (deliver stopped)) !! s = Some 1 /\
   tasks (env (deliver stopped)) = [] /\
   streams (env (deliver cancelled)) !! s = Some 2 /\
   tasks (env (deliver cancelled)) = []) /\
  run unmount w = w.
Proof.
  intros H. cbn zeta.
  destruct (stopRecording_Held w r s H) as (S1 & _ & S2 & S3 & S4 & _).
  destruct (cancelRecording_Held w r s H)
    as (X1 & _ & _ & _ & X2 & X3 & X4 & _).
  pose proof (held_live _ _ _ H) as Hl.
  assert (D : forall w2 k rest,
      tasks (env w2) = r :: rest ->
      mr_stream <$> recorders (env w2) !! r = Some s ->
      streams (env w2) !! s = Some k ->
      streams (env (run (dispatch (RecorderTask data)) w2)) !! s =
        Some (S k) /\
      tasks (env (run (dispatch (RecorderTask data)) w2)) = rest).
  { intros w2 k rest Ht Hc Hk.
    destruct (recorderTask_delivers w2 r s rest data Ht Hc) as (E & T & _).
    rewrite E. split; [now apply alter_release | exact T]. }
  split; [now repeat split |].
  split.
  { repeat split; try assumption. rewrite X2. now apply alter_release. }
  split; [exact D |].
  split; [| reflexivity].
  intros Ht. rewrite Ht in S3, X3. cbn [app] in S3, X3.
  destruct (D _ 0 [] S3 S4) as [A1 A2]; [now rewrite S2 |].
  destruct (D _ 1 [] X3 X4) as [B1 B2];
    [rewrite X2; now apply alter_release |].
  repeat split; assumption.
Qed.

Lemma C1_release_on_stop_and_cancel_witness :
  Held doubleStartWorld 7 6 /\
  streams (env (run (dispatch (RecorderTask []))
                    (run stopRecording doubleStartWorld))) !! 6%positive =
    Some 1 /\
  streams (env (run (dispatch (RecorderTask []))
                    (run cancelRecording doubleStartWorld))) !! 6%positive =
    Some 2.
Proof.
  assert (H : Held doubleStartWorld 7 6)
    by (split; vm_compute; (reflexivity || discriminate)).
  assert (Ht : tasks (env doubleStartWorld) = []) by (vm_compute; reflexivity).
  split; [exact H |].
  destruct (C1_release_on_stop_and_cancel doubleStartWorld 7 6 [] H)
    as (_ & _ & _ & Hd & _).
  destruct (Hd Ht) as (Hs & _ & Hc & _).
  split; [exact Hs | exact Hc].
Defined.

(** C1 as stated fails. After a cancel, the acquisition has received two
    release calls, not one. After the reset button is pressed while a
    recording runs, the session has left [Recording], the controls that
    could stop it are gone, nothing is queued, and the stream has received
    no release call at all. Teardown releases nothing either. And when a
    second start has displaced a running session from the refs, stopping
    releases the second stream only: the first one has had no release
    call, nothing is queued and the controls that could stop it are
    gone. *)
Lemma C1_counterexample :
  release_calls 1 (play (startTrace ++ [ClickCancel; RecorderTask []])
                        initialWorld) = Some 2 /\
  (exists w,
      play resetWhileRecording initialWorld = Some w /\
      isRecording (ui w) = false /\
      streams (env w) !! 1%positive = Some 0 /\
      recorder_state 2 w = recording /\
      tasks (env w) = [] /\ timeouts (env w) = [] /\
      enabled ClickStop w = false /\ enabled ClickCancel w = false) /\
  release_calls 1 (play (startTrace ++ [Unmount]) initialWorld) = Some 0 /\
  (exists w,
      play (doubleStart ++ [ClickStop; RecorderTask []]) initialWorld =
        Some w /\
      isRecording (ui w) = false /\
      streams (env w) !! 6%positive = Some 1 /\
      streams (env w) !! 1%positive = Some 0 /\
      recorder_state 2 w = recording /\
      tasks (env w) = [] /\ timeouts (env w) = [] /\
      enabled ClickStop w = false /\ enabled ClickCancel w = false).
Proof.
  split; [vm_compute; reflexivity |].
  split; [eexists; split; [vm_compute; reflexivity |];
          repeat split; vm_compute; reflexivity |].
  split; [vm_compute; reflexivity |].
  eexists. split; [vm_compute; reflexivity |].
  repeat split; vm_compute; reflexivity.
Qed.

(** ** The periodic callbacks *)

(** C2, as amended. On the exits of the session the component holds that
    go through [stopRecording] or [cancelRecording], the two periodic
    callbacks whose handles the refs hold, the interval of [intervalRef]
    and the animation frame of [animationRef], are cancelled by the
    handler itself: by [stopRecording] before the capture device is
    released (the stream has had no release call yet), by
    [cancelRecording] in the call that releases it; no other callback is
    touched, and no stop event revives one. So when no callback but these
    two is alive, none is left to fire after the exit, before the release
    or after it, from [Recording] or from [Paused] (pause, then exit). The
    reset button cancels the animation frame of [animationRef]. Component
    teardown runs no cleanup function and cancels nothing. *)
Theorem C2_callbacks_cancelled_on_exit (w : World) (r s : positive)
    (data : Chunk) :
  Held w r s ->
  let stopped := run stopRecording w in
  let cancelled := run cancelRecording w in
  let deliver := run (dispatch (RecorderTask data)) in
  (intervals (env stopped) = intervals (env w) ∖ held_interval w /\
   frames (env stopped) = frames (env w) ∖ held_frame w /\
   streams (env stopped) !! s = Some 0) /\
  (intervals (env cancelled) = intervals (env w) ∖ held_interval w /\
   frames (env cancelled) = frames (env w) ∖ held_frame w) /\
  (forall w2,
      intervals (env (deliver w2)) = intervals (env w2) /\
      frames (env (deliver w2)) = frames (env w2)) /\
  (OnlyHeld w ->
   (Quiet stopped /\ Quiet (deliver stopped) /\
    (forall i, enabled (IntervalFires i) (deliver stopped) = false) /\
    (forall a lvl, enabled (AnimationFrame a lvl) (deliver stopped) = false)) /\
   (Quiet cancelled /\ Quiet (deliver cancelled) /\
    (forall i, enabled (IntervalFires i) cancelled = false) /\
    (forall a lvl, enabled (AnimationFrame a lvl) cancelled = false)) /\
   (isPaused (ui w) = false -> Quiet (run pauseRecording w)) /\
   Quiet (run stopRecording (run pauseRecording w)) /\
   Quiet (run cancelRecording (run pauseRecording w))) /\
  (frames (env (run generateAnotherNote w)) = frames (env w) ∖ held_frame w /\
   animationRef (refs (run generateAnotherNote w)) = None) /\
  run unmount w = w.
Proof.
  intros H. cbn zeta.
  destruct (stopRecording_Held w r s H) as (_ & _ & S1 & _ & _ & S2 & S3).
  destruct (cancelRecording_Held w r s H)
    as (_ & _ & _ & _ & _ & _ & _ & X2 & X3).
  split; [repeat split; try assumption; rewrite S1; exact (held_live _ _ _ H) |].
  split; [now split |].
  split; [intros w2; apply recorderTask_callbacks |].
  split;
    [| split; [destruct (generateAnotherNote_frames w) as (F1 & F2 & _);
               now split
              | reflexivity]].
  intros Ho.
  destruct (Held_exit_quiet w r s H Ho) as [QS QX].
  destruct (pauseRecording_Held w r s H) as (Hp & Hpo & Hpq).
  destruct (Held_exit_quiet _ r s Hp (Hpo Ho)) as [PS PX].
  pose proof (Quiet_delivered _ data QS) as QSd.
  pose proof (Quiet_delivered _ data QX) as QXd.
  destruct (Quiet_disables _ QSd) as [D1 D2].
  destruct (Quiet_disables _ QX) as [D3 D4].
  repeat split; try assumption; try apply QS; try apply QX; try apply QSd;
    try apply QXd; try apply PS; try apply PX; try (apply Hpq; assumption).
Qed.

Lemma C2_callbacks_cancelled_on_exit_witness :
  Held recordingWorld 2 1 /\ OnlyHeld recordingWorld /\
  Quiet (run stopRecording recordingWorld) /\
  Quiet (run cancelRecording recordingWorld).
Proof.
  assert (H : Held recordingWorld 2 1)
    by (split; vm_compute; (reflexivity || discriminate)).
  assert (Ho : OnlyHeld recordingWorld).
  { apply (InSession_OnlyHeld _ 2 1). left.
    exists 5%positive, 4%positive, 3%positive.
    split; [split | ..]; vm_compute; reflexivity. }
  split; [exact H |]. split; [exact Ho |].
  destruct (C2_callbacks_cancelled_on_exit recordingWorld 2 1 [] H)
    as (_ & _ & _ & Hq & _).
  destruct (Hq Ho) as ((Hs & _) & (Hc & _) & _).
  split; [exact Hs | exact Hc].
Defined.

(** C2 as stated fails. After the reset button is pressed while a
    recording runs, the one-second interval is still alive: it can fire,
    and when it does the elapsed time, just reset to zero, goes to one.
    Teardown leaves both callbacks alive. And when a second start has
    displaced a running session from the refs, the interval and the
    animation frame of the first session are still alive after a stop and
    the release of the second stream. *)
Lemma C2_counterexample :
  (exists w,
      play resetWhileRecording initialWorld = Some w /\
      isRecording (ui w) = false /\
      intervals (env w) = {[5%positive]} /\
      enabled (IntervalFires 5) w = true /\
      recordingTime (ui w) = 0 /\
      recordingTime (ui (run (dispatch (IntervalFires 5)) w)) = 1) /\
  (exists w,
      play (startTrace ++ [Unmount]) initialWorld = Some w /\
      intervals (env w) = {[5%positive]} /\
      frames (env w) = {[4%positive]}) /\
  (exists w,
      play (doubleStart ++ [ClickStop; RecorderTask []]) initialWorld =
        Some w /\
      isRecording (ui w) = false /\
      streams (env w) !! 6%positive = Some 1 /\
      enabled (IntervalFires 5) w = true /\
      enabled (AnimationFrame 4 0) w = true).
Proof.
  split; [| split]; eexists; (split; [vm_compute; reflexivity |]);
    repeat split; vm_compute; reflexivity.
Qed.

(** ** Cancelling *)

(** X18. Cancelling the session the component holds, with no recorder
    event queued, leaves no finished audio object and stops the tracks of
    its stream: the blob state is [null] after [cancelRecording], the
    stream has received a release call, the cancelling flag is set, and
    when the recorder's stop event is delivered next the flag suppresses
    the finalisation, so the blob state is still [null]. *)
Theorem cancel_discards_held_session (w : World) (r s : positive)
    (data : Chunk) :
  Held w r s -> tasks (env w) = [] ->
  let cancelled := run cancelRecording w in
  let delivered := run (dispatch (RecorderTask data)) cancelled in
  recordedBlob (ui cancelled) = None /\
  streams (env cancelled) !! s = Some 1 /\
  isCancellingRef (refs cancelled) = true /\
  isRecording (ui cancelled) = false /\
  isPaused (ui cancelled) = false /\
  recordedBlob (ui delivered) = None /\
  streams (env delivered) !! s = Some 2.
Proof.
  intros H Ht. cbn zeta.
  destruct (cancelRecording_Held w r s H)
    as (X1 & X2 & X3 & X4 & X5 & X6 & X7 & _).
  rewrite Ht in X6. cbn [app] in X6.
  destruct (recorderTask_delivers _ r s [] data X6 X7) as (D1 & _ & D2).
  pose proof (held_live _ _ _ H) as Hl.
  repeat split; try assumption.
  - rewrite X5. now apply alter_release.
  - rewrite (D2 X4). exact X3.
  - rewrite D1, X5. apply alter_release. now apply alter_release.
Qed.

Lemma cancel_discards_held_session_witness :
  Held pausedWorld 2 1 /\ tasks (env pausedWorld) = [] /\
  recordedBlob (ui (run (dispatch (RecorderTask []))
                        (run cancelRecording pausedWorld))) = None /\
  streams (env (run cancelRecording pausedWorld)) !! 1%positive = Some 1.
Proof.
  assert (H : Held pausedWorld 2 1)
    by (split; vm_compute; (reflexivity || discriminate)).
  assert (Ht : tasks (env pausedWorld) = []) by (vm_compute; reflexivity).
  split; [exact H |]. split; [exact Ht |].
  destruct (cancel_discards_held_session pausedWorld 2 1 [] H Ht)
    as (_ & Hr & _ & _ & _ & Hb & _).
  split; [exact Hb | exact Hr].
Defined.

(** C3, where the code departs from it. [startRecording] does not check
    whether a session is running or a request for the microphone is
    pending, and the panel offers its start button while the request of
    the first press is pending. After the two starts the component is in
    state [Recording] with the cancel button shown, and two streams are
    open. [cancelRecording] and the stop event that follows stop the
    tracks of the second stream only: the first stream has had no release
    call, its recorder is still recording, nothing is queued and the
    controls that could end it are gone. The cancelling flag is a side
    channel too: when a session is cancelled before the timeout of an
    earlier cancel has fired, that timeout clears the flag, and the stop
    event of the cancelled session then builds the finished audio
    object. *)
Theorem C3_cancel_misses_displaced_session :
  (exists w,
      play doubleStart initialWorld = Some w /\
      isRecording (ui w) = true /\ isPaused (ui w) = false /\
      enabled ClickCancel w = true /\
      streams (env w) !! 1%positive = Some 0 /\
      streams (env w) !! 6%positive = Some 0 /\
      recorder_state 2 w = recording /\
      recorder_state 7 w = recording /\
      recordedBlob (ui (run (dispatch (RecorderTask []))
                            (run (dispatch ClickCancel) w))) = None /\
      streams (env (run (dispatch (RecorderTask []))
                        (run (dispatch ClickCancel) w))) !! 6%positive =
        Some 2 /\
      streams (env (run (dispatch (RecorderTask []))
                        (run (dispatch ClickCancel) w))) !! 1%positive =
        Some 0 /\
      recorder_state 2 (run (dispatch (RecorderTask []))
                            (run (dispatch ClickCancel) w)) = recording /\
      tasks (env (run (dispatch (RecorderTask []))
                      (run (dispatch ClickCancel) w))) = [] /\
      enabled ClickCancel (run (dispatch (RecorderTask []))
                               (run (dispatch ClickCancel) w)) = false /\
      enabled ClickStop (run (dispatch (RecorderTask []))
                             (run (dispatch ClickCancel) w)) = false) /\
  (exists w,
      play cancelRace initialWorld = Some w /\
      isRecording (ui w) = false /\
      recordedBlob (ui w) =
        Some {| blob_parts := [[Byte.x52; Byte.x49]];
                blob_type := "audio/wav" |}).
Proof.
  split; eexists; (split; [vm_compute; reflexivity |]);
    repeat split; vm_compute; reflexivity.
Qed.

(** ** Pause and resume *)

(** C7, where the code departs from it. After the two starts of
    [doubleStart] the component is in state [Recording] at elapsed time
    zero with the pause button shown. [pauseRecording] clears the interval
    of [intervalRef], which is the one of the second start; the interval
    of the first start is still alive, so three seconds into the pause the
    counter reads three, the resume finds it at three and not at zero, and
    with the interval that the resume adds the counter then advances by
    two each second. *)
Theorem C7_pause_leaves_displaced_interval :
  exists w,
    play doubleStart initialWorld = Some w /\
    isRecording (ui w) = true /\ isPaused (ui w) = false /\
    enabled ClickPause w = true /\
    recordingTime (ui w) = 0 /\
    isPaused (ui (run pauseRecording w)) = true /\
    recordingTime (ui (run pauseRecording w)) = 0 /\
    enabled (IntervalFires 5) (run pauseRecording w) = true /\
    recordingTime (ui (Nat.iter 3 second_passes (run pauseRecording w))) = 3 /\
    enabled (ClickResume 0)
      (Nat.iter 3 second_passes (run pauseRecording w)) = true /\
    isPaused (ui (run (resumeRecording 0)
                    (Nat.iter 3 second_passes (run pauseRecording w)))) =
      false /\
    recordingTime (ui (run (resumeRecording 0)
                         (Nat.iter 3 second_passes (run pauseRecording w)))) =
      3 /\
    recordingTime
      (ui (Nat.iter 3 second_passes
             (run (resumeRecording 0)
                (Nat.iter 3 second_passes (run pauseRecording w))))) = 9.
Proof.
  eexists. split; [vm_compute; reflexivity |].
  repeat split; vm_compute; reflexivity.
Qed.
